(** * The firm agent of the economy example (examples/economy/firm.py)

    A shallow embedding of the [Firm] agent and of its subclasses, and the
    properties of its decision core.

    Numbers.  Python numbers are modelled as exact rationals ([Q]); the
    Python integers are the integers among them, [math.floor] and [np.ceil]
    are [Qfloor] and [Qceiling].  The rounding of floating-point arithmetic
    is outside this model: a quotient is the exact quotient, where Python
    rounds it to a binary64.  The plan of the asset optimizer is made of
    numpy integers of 64 bits: the conversion to them and their wrap-around
    are modelled.
    [worker_change] is always the difference of a numpy integer and a list
    length, and is an integer ([Z]).

    Effects.  A method runs in a small state-and-exception monad over a
    [store]: the firm's state dictionary, the instructions sent so far to
    other agents, and a counter of the interactions with the outside
    (queries, random draws).  What the outside answers is given by an
    [environment] of oracles indexed by that counter.  A Python exception
    leaves the store as it was when it was raised. *)

From Stdlib Require Import ZArith QArith Qminmax Qround List Lia Lqa Bool Arith.
From Stdlib Require Import Permutation.
Import ListNotations.

Open Scope Q_scope.

(** ** Numbers *)

Definition Qltb (x y : Q) : bool := negb (Qle_bool y x).

(** Python's truth value of a number: zero is false. *)
Definition truthy (x : Q) : bool := negb (Qeq_bool x 0).

Definition Qnat (n : nat) : Q := inject_Z (Z.of_nat n).

(** *** The 64-bit integers of numpy *)

(** The least and the greatest of them, -2^63 and 2^63 - 1. *)
Definition int64_min : Z := (-9223372036854775808)%Z.
Definition int64_max : Z := 9223372036854775807%Z.

Definition in_int64 (z : Z) : bool :=
  (int64_min <=? z)%Z && (z <=? int64_max)%Z.

(** [astype(np.int)] of a float whose value is the whole number [z]: the
    number itself when it has 64 bits, and otherwise the least 64-bit
    integer, which is what the conversion instruction of x86-64 gives for
    a value out of range. *)
Definition astype_int (z : Z) : Z := if in_int64 z then z else int64_min.

(** The sum or difference of 64-bit integers: the low 64 bits of the exact
    result, read as a signed number. *)
Definition wrap_int64 (z : Z) : Z :=
  ((z - int64_min) mod 18446744073709551616 + int64_min)%Z.

Definition is_whole (x : Q) : bool := Qeq_bool (inject_Z (Qfloor x)) x.

(** [equipment + max(0, n_equip - equipment)] for the numpy integer
    [n_equip].  A whole number of 64 bits is taken to be an integer (the
    equipment starts at 0 and grows by whole purchases): numpy then takes
    the difference in 64-bit integers, [max] gives that difference when it
    is positive and Python's 0 otherwise, and the sum with a numpy integer
    is again one of 64 bits.  Any other amount makes the difference and the
    sum floating-point numbers. *)
Definition equipment_target (equipment : Q) (n_equip : Z) : Q :=
  if is_whole equipment && in_int64 (Qfloor equipment) then
    let d := wrap_int64 (n_equip - Qfloor equipment) in
    if (0 <? d)%Z then inject_Z (wrap_int64 (Qfloor equipment + d))
    else equipment + 0
  else equipment + Qmax 0 (inject_Z n_equip - equipment).

(** ** Data model *)

Definition worker := nat.
Definition firm_id := nat.

(** What [worker.get('employer')] can answer: a proxy of this firm, or a
    proxy of another one ([None] is [option]'s). *)
Inductive employer : Type :=
| ThisFirm
| OtherFirm (f : firm_id).

(** The instructions ([call]) a firm sends to other agents. *)
Inductive event : Type :=
| WorkerQuit (w : worker)                  (* worker.call('quit') *)
| WorkerHire (w : worker) (wage : Q)       (* worker.call('hire', AgentProxy(self), wage) *)
| EmployerFire (f : firm_id) (w : worker)  (* employer.call('fire', worker) *)
| SupplierSell (q : Q).                    (* supplier.call('sell', to_purchase) *)

Inductive firm_class : Type :=
| Firm
| ConsumerGoodFirm
| CapitalEquipmentFirm
| RawMaterialFirm.

(** The attributes set once by [__init__]. *)
Record config : Type := {
  class_of : firm_class;
  labor_cost_per_good : Q;
  material_cost_per_good : Q;
  labor_per_equipment : Q;
  labor_per_worker : Q;
  supply_increment : Q;
  profit_increment : Q;
  wage_increment : Q
}.

(** The state dictionary. *)
Record state : Type := {
  desired_supply : Q;
  desired_equipment : Q;
  worker_change : Z;
  workers : list worker;
  cash : Q;
  revenue : Q;
  costs : Q;
  price : Q;
  profit : Q;
  prev_profit : Q;
  leftover : Q;
  supply : Q;
  n_sold : Q;
  profit_margin : Q;
  equipment : Q;
  materials : Q
}.

(** The state [__init__] builds. *)
Definition initial_state : state := {|
  desired_supply := 1; desired_equipment := 0; worker_change := 0%Z;
  workers := []; cash := 50000; revenue := 0; costs := 0; price := 0;
  profit := 0; prev_profit := 0; leftover := 0; supply := 0; n_sold := 0;
  profit_margin := 1; equipment := 0; materials := 0 |}.

(** [self[key] = v], one setter per key that is assigned somewhere. *)
Definition set_desired_supply (v : Q) (s : state) : state :=
  {| desired_supply := v; desired_equipment := desired_equipment s;
     worker_change := worker_change s; workers := workers s; cash := cash s;
     revenue := revenue s; costs := costs s; price := price s;
     profit := profit s; prev_profit := prev_profit s; leftover := leftover s;
     supply := supply s; n_sold := n_sold s; profit_margin := profit_margin s;
     equipment := equipment s; materials := materials s |}.

Definition set_desired_equipment (v : Q) (s : state) : state :=
  {| desired_supply := desired_supply s; desired_equipment := v;
     worker_change := worker_change s; workers := workers s; cash := cash s;
     revenue := revenue s; costs := costs s; price := price s;
     profit := profit s; prev_profit := prev_profit s; leftover := leftover s;
     supply := supply s; n_sold := n_sold s; profit_margin := profit_margin s;
     equipment := equipment s; materials := materials s |}.

Definition set_worker_change (v : Z) (s : state) : state :=
  {| desired_supply := desired_supply s; desired_equipment := desired_equipment s;
     worker_change := v; workers := workers s; cash := cash s;
     revenue := revenue s; costs := costs s; price := price s;
     profit := profit s; prev_profit := prev_profit s; leftover := leftover s;
     supply := supply s; n_sold := n_sold s; profit_margin := profit_margin s;
     equipment := equipment s; materials := materials s |}.

Definition set_workers (v : list worker) (s : state) : state :=
  {| desired_supply := desired_supply s; desired_equipment := desired_equipment s;
     worker_change := worker_change s; workers := v; cash := cash s;
     revenue := revenue s; costs := costs s; price := price s;
     profit := profit s; prev_profit := prev_profit s; leftover := leftover s;
     supply := supply s; n_sold := n_sold s; profit_margin := profit_margin s;
     equipment := equipment s; materials := materials s |}.

Definition set_cash (v : Q) (s : state) : state :=
  {| desired_supply := desired_supply s; desired_equipment := desired_equipment s;
     worker_change := worker_change s; workers := workers s; cash := v;
     revenue := revenue s; costs := costs s; price := price s;
     profit := profit s; prev_profit := prev_profit s; leftover := leftover s;
     supply := supply s; n_sold := n_sold s; profit_margin := profit_margin s;
     equipment := equipment s; materials := materials s |}.

Definition set_revenue (v : Q) (s : state) : state :=
  {| desired_supply := desired_supply s; desired_equipment := desired_equipment s;
     worker_change := worker_change s; workers := workers s; cash := cash s;
     revenue := v; costs := costs s; price := price s;
     profit := profit s; prev_profit := prev_profit s; leftover := leftover s;
     supply := supply s; n_sold := n_sold s; profit_margin := profit_margin s;
     equipment := equipment s; materials := materials s |}.

Definition set_costs (v : Q) (s : state) : state :=
  {| desired_supply := desired_supply s; desired_equipment := desired_equipment s;
     worker_change := worker_change s; workers := workers s; cash := cash s;
     revenue := revenue s; costs := v; price := price s;
     profit := profit s; prev_profit := prev_profit s; leftover := leftover s;
     supply := supply s; n_sold := n_sold s; profit_margin := profit_margin s;
     equipment := equipment s; materials := materials s |}.

Definition set_price (v : Q) (s : state) : state :=
  {| desired_supply := desired_supply s; desired_equipment := desired_equipment s;
     worker_change := worker_change s; workers := workers s; cash := cash s;
     revenue := revenue s; costs := costs s; price := v;
     profit := profit s; prev_profit := prev_profit s; leftover := leftover s;
     supply := supply s; n_sold := n_sold s; profit_margin := profit_margin s;
     equipment := equipment s; materials := materials s |}.

Definition set_prev_profit (v : Q) (s : state) : state :=
  {| desired_supply := desired_supply s; desired_equipment := desired_equipment s;
     worker_change := worker_change s; workers := workers s; cash := cash s;
     revenue := revenue s; costs := costs s; price := price s;
     profit := profit s; prev_profit := v; leftover := leftover s;
     supply := supply s; n_sold := n_sold s; profit_margin := profit_margin s;
     equipment := equipment s; materials := materials s |}.

Definition set_leftover (v : Q) (s : state) : state :=
  {| desired_supply := desired_supply s; desired_equipment := desired_equipment s;
     worker_change := worker_change s; workers := workers s; cash := cash s;
     revenue := revenue s; costs := costs s; price := price s;
     profit := profit s; prev_profit := prev_profit s; leftover := v;
     supply := supply s; n_sold := n_sold s; profit_margin := profit_margin s;
     equipment := equipment s; materials := materials s |}.

Definition set_supply (v : Q) (s : state) : state :=
  {| desired_supply := desired_supply s; desired_equipment := desired_equipment s;
     worker_change := worker_change s; workers := workers s; cash := cash s;
     revenue := revenue s; costs := costs s; price := price s;
     profit := profit s; prev_profit := prev_profit s; leftover := leftover s;
     supply := v; n_sold := n_sold s; profit_margin := profit_margin s;
     equipment := equipment s; materials := materials s |}.

Definition set_n_sold (v : Q) (s : state) : state :=
  {| desired_supply := desired_supply s; desired_equipment := desired_equipment s;
     worker_change := worker_change s; workers := workers s; cash := cash s;
     revenue := revenue s; costs := costs s; price := price s;
     profit := profit s; prev_profit := prev_profit s; leftover := leftover s;
     supply := supply s; n_sold := v; profit_margin := profit_margin s;
     equipment := equipment s; materials := materials s |}.

Definition set_profit_margin (v : Q) (s : state) : state :=
  {| desired_supply := desired_supply s; desired_equipment := desired_equipment s;
     worker_change := worker_change s; workers := workers s; cash := cash s;
     revenue := revenue s; costs := costs s; price := price s;
     profit := profit s; prev_profit := prev_profit s; leftover := leftover s;
     supply := supply s; n_sold := n_sold s; profit_margin := v;
     equipment := equipment s; materials := materials s |}.

Definition set_equipment (v : Q) (s : state) : state :=
  {| desired_supply := desired_supply s; desired_equipment := desired_equipment s;
     worker_change := worker_change s; workers := workers s; cash := cash s;
     revenue := revenue s; costs := costs s; price := price s;
     profit := profit s; prev_profit := prev_profit s; leftover := leftover s;
     supply := supply s; n_sold := n_sold s; profit_margin := profit_margin s;
     equipment := v; materials := materials s |}.

Definition set_materials (v : Q) (s : state) : state :=
  {| desired_supply := desired_supply s; desired_equipment := desired_equipment s;
     worker_change := worker_change s; workers := workers s; cash := cash s;
     revenue := revenue s; costs := costs s; price := price s;
     profit := profit s; prev_profit := prev_profit s; leftover := leftover s;
     supply := supply s; n_sold := n_sold s; profit_margin := profit_margin s;
     equipment := equipment s; materials := v |}.

(** ** The monad of a method call *)

Inductive exn : Type :=
| ValueError          (* list.remove(x): x not in list *)
| ZeroDivisionError
| IndexError          (* list index out of range, random.choice([]) *)
| AttributeError.     (* a method the class does not have *)

Inductive outcome (A : Type) : Type :=
| Return (a : A)
| Raise (e : exn)
| OutOfFuel.

Arguments Return {A} a.
Arguments Raise {A} e.
Arguments OutOfFuel {A}.

Record store : Type := {
  self : state;          (* the firm's state dictionary *)
  sent : list event;     (* instructions sent so far, oldest first *)
  tick : nat             (* interactions with the outside so far *)
}.

Definition M (A : Type) : Type := store -> outcome A * store.

Definition ret {A} (a : A) : M A := fun s => (Return a, s).

Definition bind {A B} (m : M A) (k : A -> M B) : M B :=
  fun s =>
    match m s with
    | (Return a, s') => k a s'
    | (Raise e, s') => (Raise e, s')
    | (OutOfFuel, s') => (OutOfFuel, s')
    end.

Definition raise {A} (e : exn) : M A := fun s => (Raise e, s).

Definition out_of_fuel {A} : M A := fun s => (OutOfFuel, s).

Declare Scope py_scope.
Delimit Scope py_scope with py.
Notation "x <- m ;; k" := (bind m (fun x => k))
  (at level 61, m at next level, right associativity) : py_scope.
Notation "m ;; k" := (bind m (fun _ => k))
  (at level 61, right associativity) : py_scope.
Notation "' pat <- m ;; k" := (bind m (fun x => match x with pat => k end))
  (at level 61, pat pattern, m at next level, right associativity) : py_scope.
Open Scope py_scope.

(** Modelled from the spec: the [Agent] base class is not among these
    sources; the spec describes its state as mutable keyed fields, and
    [hire] and [fire] rely on [self['workers']] being the list itself, not a
    copy.  [get] is [self[key]]. *)
Definition get {A} (f : state -> A) : M A := fun s => (Return (f (self s)), s).

(** Modelled from the spec: [self[key] = v], and the change in place of
    the list under [self['workers']], on the same keyed fields. *)
Definition modify (f : state -> state) : M unit :=
  fun s => (Return tt, {| self := f (self s); sent := sent s; tick := tick s |}).

(** An instruction to another agent. *)
Definition emit (e : event) : M unit :=
  fun s => (Return tt, {| self := self s; sent := sent s ++ [e]; tick := S (tick s) |}).

(** A query to the outside: the number of the interaction. *)
Definition ask : M nat :=
  fun s => (Return (tick s), {| self := self s; sent := sent s; tick := S (tick s) |}).

(** A computation that only reads the state and may raise. *)
Definition eval {A} (f : state -> outcome A) : M A := fun s => (f (self s), s).

(** Python's true division, as the exact quotient. *)
Definition truediv (a b : Q) : outcome Q :=
  if Qeq_bool b 0 then Raise ZeroDivisionError else Return (a / b).

Definition obind {A B} (m : outcome A) (k : A -> outcome B) : outcome B :=
  match m with
  | Return a => k a
  | Raise e => Raise e
  | OutOfFuel => OutOfFuel
  end.

(** [list.remove(x)]: the first occurrence goes, [ValueError] when there is none. *)
Fixpoint list_remove (x : worker) (l : list worker) : option (list worker) :=
  match l with
  | [] => None
  | y :: l' =>
      if Nat.eqb y x then Some l'
      else match list_remove x l' with
           | Some r => Some (y :: r)
           | None => None
           end
  end.

(** ** The outside *)

(** The decision variables [(n_workers, wage, n_equipment)] of the optimizer. *)
Definition vec : Type := (Q * Q * Q)%type.

(** Modelled from the spec: the workers, the suppliers, the learner and
    the minimizer are outside these sources; a query or an instruction
    suspends the caller until it is answered.  The record holds the answers,
    whatever they are; the first argument is the number of the interaction. *)
Record environment : Type := {
  employer_answer : nat -> worker -> option employer; (* worker.get('employer') *)
  wage_answer : nat -> worker -> Q;                   (* w.get('wage') *)
  supplier_answer : nat -> Q * Q;                     (* supplier.get('price', 'supply') *)
  random_draw : nat -> nat;                           (* random.choice *)
  choose_action : nat -> option Z -> nat;             (* self.learner.choose_action *)
  minimize : nat -> (vec -> Q) -> vec -> list (vec -> Q) -> nat -> vec
                                                      (* scipy.optimize.minimize(...).x *)
}.

Record world : Type := {
  mean_wage : Q;
  mean_equip_price : Q
}.

(** One of the six action dictionaries. *)
Record action : Type := {
  act_supply : option Q;
  act_profit_margin : option Q
}.

(** [d.get(key, default)] *)
Definition dict_get (o : option Q) (default : Q) : Q :=
  match o with Some v => v | None => default end.

(** ** The firm *)

Section FirmAgent.

Variable cfg : config.
Variable env : environment.

Definition pay (cost : Q) : M unit :=
  c <- get cash ;; modify (set_cash (c - cost)) ;;
  k <- get costs ;; modify (set_costs (k + cost)).

(** *** Labor and capacity *)

Definition _worker_labor (st : state) : Q :=
  labor_per_worker cfg * Qnat (length (workers st)).

Definition _equipment_labor (st : state) : Q :=
  Qmin (Qnat (length (workers st))) (equipment st) * labor_per_equipment cfg.

Definition _labor (st : state) : Q :=
  _worker_labor st + _equipment_labor st.

Definition _labor_for_equipment (st : state) (equipment : Q) : Q :=
  _worker_labor st + Qmin (Qnat (length (workers st))) equipment * labor_per_equipment cfg.

(** [Firm._production_capacity], overridden by [ConsumerGoodFirm]. *)
Definition _production_capacity (st : state) : outcome Z :=
  match class_of cfg with
  | Firm | RawMaterialFirm =>
      obind (truediv (_labor st) (labor_cost_per_good cfg)) (fun q =>
      Return (Qfloor q))
  | ConsumerGoodFirm | CapitalEquipmentFirm =>
      obind (truediv (_labor st) (labor_cost_per_good cfg)) (fun a =>
      obind (truediv (materials st) (material_cost_per_good cfg)) (fun b =>
      Return (Qfloor (Qmin a b))))
  end.

(** *** Firing, hiring, shutdown *)

Definition fire (w : worker) : M unit :=
  ws <- get workers ;;
  match list_remove w ws with
  | None => raise ValueError
  | Some ws' => modify (set_workers ws') ;; emit (WorkerQuit w)
  end.

Definition random_choice (l : list worker) : M worker :=
  t <- ask ;;
  match nth_error l (random_draw env t mod length l) with
  | Some w => ret w
  | None => raise IndexError
  end.

Definition is_empty (l : list worker) : bool :=
  match l with [] => true | _ => false end.

(** [employer.call('fire', worker)]: the employer runs its [fire] before the
    caller goes on; when the employer is this firm, that is [fire] on this
    state. *)
Definition employer_fire (e : employer) (w : worker) : M unit :=
  match e with
  | ThisFirm => fire w
  | OtherFirm f => emit (EmployerFire f w)
  end.

(** The [while] loop of [hire]; [applicants] is the caller's list, changed
    in place, [hired] the local list. *)
Fixpoint hire_loop (fuel : nat) (wage : Q) (applicants hired : list worker)
  : M (list worker * list worker) :=
  wc <- get worker_change ;;
  if (0 <? wc)%Z && negb (is_empty applicants) then
    match fuel with
    | O => out_of_fuel
    | S fuel' =>
        w <- random_choice applicants ;;
        t <- ask ;;
        match employer_answer env t w with
        | Some e => employer_fire e w
        | None => ret tt
        end ;;
        emit (WorkerHire w wage) ;;
        match list_remove w applicants with
        | None => raise ValueError
        | Some applicants' =>
            ws <- get workers ;; modify (set_workers (ws ++ [w])) ;;
            wc' <- get worker_change ;; modify (set_worker_change (wc' - 1)%Z) ;;
            hire_loop fuel' wage applicants' (hired ++ [w])
        end
    end
  else ret (applicants, hired).

(** What [hire] returns, with the applicants' list as it leaves it. *)
Record hire_result : Type := {
  hired_workers : list worker;
  vacancies : Z;
  next_wage : Q;
  applicants_left : list worker
}.

Definition hire (applicants : list worker) (wage : Q) : M hire_result :=
  ' (applicants', hired) <- hire_loop (length applicants) wage applicants [] ;;
  wc <- get worker_change ;;
  let wage' := if (0 <? wc)%Z then wage + wage_increment cfg else wage in
  wc' <- get worker_change ;;
  ret {| hired_workers := hired; vacancies := wc'; next_wage := wage';
         applicants_left := applicants' |}.

(** [for worker in self['workers']: yield from self.fire(worker)]: the list
    iterator holds an index into the list that [fire] shortens. *)
Fixpoint shutdown_loop (fuel : nat) (i : nat) : M unit :=
  ws <- get workers ;;
  match nth_error ws i with
  | None => ret tt
  | Some w =>
      match fuel with
      | O => out_of_fuel
      | S fuel' => fire w ;; shutdown_loop fuel' (S i)
      end
  end.

Definition shutdown : M unit :=
  ws <- get workers ;;
  shutdown_loop (length ws) 0.

(** *** Producing and selling *)

Fixpoint sum_wages (ws : list worker) (wages : Q) : M Q :=
  match ws with
  | [] => ret wages
  | w :: ws' => t <- ask ;; sum_wages ws' (wages + wage_answer env t w)
  end.

Definition produce (_ : world) : M (Q * Q) :=
  capacity <- eval _production_capacity ;;
  ds <- get desired_supply ;;
  modify (set_supply (Qmax 1 (Qmin ds (inject_Z capacity)))) ;;
  ws <- get workers ;;
  wages <- sum_wages ws 0 ;;
  c <- get costs ;; modify (set_costs (c + wages)) ;;
  k <- get cash ;; modify (set_cash (k - wages)) ;;
  c' <- get costs ;; s <- get supply ;;
  cost_per_unit <- eval (fun _ => truediv c' s) ;;
  pm <- get profit_margin ;;
  modify (set_price (Qmax 0 (cost_per_unit + pm))) ;;
  s' <- get supply ;; p <- get price ;;
  ret (s', p).

Definition sell (quantity : Q) : M Q :=
  s <- get supply ;;
  let n := Qmin s quantity in
  s0 <- get supply ;; modify (set_supply (s0 - n)) ;;
  ns <- get n_sold ;; modify (set_n_sold (ns + n)) ;;
  p <- get price ;; modify (set_revenue (p * n)) ;;
  k <- get cash ;; r <- get revenue ;; modify (set_cash (k + r)) ;;
  ret n.

(** *** Outcome classification and actions *)

(** [None] is Python's [None], returned when no branch is taken. *)
Definition curren (st : state) : option Z :=
  if Qeq_bool (n_sold st) 0 then Some 0%Z
  else if Qltb 0 (n_sold st) && Qltb 0 (leftover st) then Some 1%Z
  else if Qltb 0 (n_sold st) && Qeq_bool (leftover st) 0
          && Qle_bool (profit st) 0 then Some 2%Z
  else if Qltb 0 (n_sold st) && Qeq_bool (leftover st) 0
          && Qltb 0 (profit st)
          && Qltb (profit st - prev_profit st) 0 then Some 3%Z
  else if Qltb 0 (n_sold st) && Qeq_bool (leftover st) 0
          && Qltb 0 (profit st)
          && Qle_bool 0 (profit st - prev_profit st) then Some 4%Z
  else None.

Definition reward (s : Z) : Z := s.

Definition actions : list action :=
  [ {| act_supply := Some (supply_increment cfg); act_profit_margin := None |};
    {| act_supply := Some (- supply_increment cfg); act_profit_margin := None |};
    {| act_supply := Some (supply_increment cfg);
       act_profit_margin := Some (profit_increment cfg) |};
    {| act_supply := Some (supply_increment cfg);
       act_profit_margin := Some (- profit_increment cfg) |};
    {| act_supply := Some (- supply_increment cfg);
       act_profit_margin := Some (profit_increment cfg) |};
    {| act_supply := Some (- supply_increment cfg);
       act_profit_margin := Some (- profit_increment cfg) |} ].

(** *** The asset optimizer *)

Definition objective (mean_equip_price : Q) (x : vec) : Q :=
  let '(n_workers, wage, n_equipment) := x in
  n_workers * wage + n_equipment * mean_equip_price.

Definition constraint (required_labor : Q) (x : vec) : Q :=
  let '(n_workers, wage, n_equipment) := x in
  let equip_labor :=
    Qmin (n_workers * labor_per_equipment cfg) (n_equipment * labor_per_equipment cfg) in
  n_workers * labor_per_worker cfg + equip_labor - required_labor.

(** [np.ceil(x).astype(np.int)]: each component rounded up, then converted
    to a 64-bit integer. *)
Definition ceil_vec (x : vec) : Z * Z * Z :=
  let '(a, b, c) := x in
  (astype_int (Qceiling a), astype_int (Qceiling b), astype_int (Qceiling c)).

(** [results.x] of the call of the minimizer, the [t]-th interaction. *)
Definition results_x (required_labor mean_wage mean_equip_price : Q) (t : nat)
  : vec :=
  let down_wage_pressure := wage_increment cfg in
  minimize env t (objective mean_equip_price) (1, 0, 0)
    [ constraint required_labor;
      (fun x => fst (fst x));
      (fun x => snd (fst x) - (mean_wage - down_wage_pressure));
      (fun x => snd x) ] 20.

Definition assess_assets (required_labor mean_wage mean_equip_price : Q)
  : M (Z * Z * Z) :=
  t <- ask ;;
  ret (ceil_vec (results_x required_labor mean_wage mean_equip_price t)).

(** *** Purchases *)

Definition purchase_equipment : M (Q * Q) :=
  t <- ask ;;
  let '(price, supply) := supplier_answer env t in
  de <- get desired_equipment ;; e <- get equipment ;;
  let total_equipment_cost := (de - e) * price in
  n_equipment <-
    (if negb (truthy total_equipment_cost) then
       de' <- get desired_equipment ;; e' <- get equipment ;;
       ret (Qmax 0 (de' - e'))
     else
       k <- get cash ;;
       let equipment_budget := Qmax 0 (Qmin k total_equipment_cost) in
       q <- eval (fun _ => truediv equipment_budget price) ;;
       ret (inject_Z (Qfloor q))) ;;
  let to_purchase := Qmin supply n_equipment in
  emit (SupplierSell to_purchase) ;;
  e0 <- get equipment ;; modify (set_equipment (e0 + to_purchase)) ;;
  let cost := to_purchase * price in
  pay cost ;;
  de1 <- get desired_equipment ;; e1 <- get equipment ;;
  ret (de1 - e1, to_purchase).

(** [ConsumerGoodFirm.purchase_materials]; [Firm] and [RawMaterialFirm] have
    no such method. *)
Definition purchase_materials : M (Q * Q) :=
  match class_of cfg with
  | Firm | RawMaterialFirm => raise AttributeError
  | ConsumerGoodFirm | CapitalEquipmentFirm =>
      t <- ask ;;
      let '(price, supply) := supplier_answer env t in
      de <- get desired_equipment ;;
      q <- eval (fun st =>
             truediv (_labor_for_equipment st de) (labor_cost_per_good cfg)) ;;
      let capacity_given_labor := Qfloor q in
      ds <- get desired_supply ;;
      modify (set_desired_supply (Qmin (inject_Z capacity_given_labor) ds)) ;;
      ds' <- get desired_supply ;;
      let required_materials := material_cost_per_good cfg * ds' in
      m <- get materials ;;
      let total_material_cost := (required_materials - m) * price in
      n_materials <-
        (if negb (truthy total_material_cost) then
           m' <- get materials ;;
           ret (Qmax 0 (required_materials - m'))
         else
           k <- get cash ;;
           let material_budget := Qmax 0 (Qmin k total_material_cost) in
           q' <- eval (fun _ => truediv material_budget price) ;;
           ret (inject_Z (Qfloor q'))) ;;
      let to_purchase := Qmin supply n_materials in
      emit (SupplierSell to_purchase) ;;
      m0 <- get materials ;; modify (set_materials (m0 + to_purchase)) ;;
      let cost := to_purchase * price in
      pay cost ;;
      m1 <- get materials ;;
      ret (required_materials - m1, to_purchase)
  end.

(** *** The daily decision *)

(** The [while self['worker_change'] < 0] loop of [set_production_target]. *)
Fixpoint fire_loop (fuel : nat) : M unit :=
  wc <- get worker_change ;;
  if (wc <? 0)%Z then
    match fuel with
    | O => out_of_fuel
    | S fuel' =>
        ws <- get workers ;;
        w <- random_choice ws ;;
        fire w ;;
        wc' <- get worker_change ;; modify (set_worker_change (wc' + 1)%Z) ;;
        fire_loop fuel'
    end
  else ret tt.

(** [n_workers], [wage] and [n_equip] are numpy integers of 64 bits.  The
    headcount [max(n_workers, 0)] is between 0 and 2^63 - 1 and the length
    of a list is below 2^63, so that their difference never wraps around;
    the desired equipment is [equipment_target]. *)
Definition set_production_target (w : world) : M (Z * Z) :=
  p <- get profit ;; modify (set_prev_profit p) ;;
  s <- get supply ;; modify (set_leftover s) ;;
  code <- get curren ;;
  t <- ask ;;
  match nth_error actions (choose_action env t code) with
  | None => raise IndexError
  | Some act =>
      ds <- get desired_supply ;;
      modify (set_desired_supply (Qmax 1 (ds + dict_get (act_supply act) 0))) ;;
      pm <- get profit_margin ;;
      modify (set_profit_margin (pm + dict_get (act_profit_margin act) 0)) ;;
      modify (set_supply 0) ;;
      modify (set_materials 0) ;;
      modify (set_n_sold 0) ;;
      modify (set_revenue 0) ;;
      modify (set_costs 0) ;;
      ds' <- get desired_supply ;;
      let required_labor := ds' * labor_cost_per_good cfg in
      ' (n_workers, wage, n_equip) <-
        assess_assets required_labor (mean_wage w) (mean_equip_price w) ;;
      let n_workers := Z.max n_workers 0 in
      ws <- get workers ;;
      modify (set_worker_change (n_workers - Z.of_nat (length ws))%Z) ;;
      e <- get equipment ;;
      modify (set_desired_equipment (equipment_target e n_equip)) ;;
      wc <- get worker_change ;;
      fire_loop (Z.to_nat (- wc)) ;;
      wc' <- get worker_change ;;
      ret (wc', wage)
  end.

End FirmAgent.

(** ** Running a method *)

Definition start (st : state) : store := {| self := st; sent := []; tick := 0 |}.

(** ** Vocabulary of the properties *)

(** The five rules, in the order of the table. *)
Definition fires (k : Z) (st : state) : Prop :=
  match k with
  | 0%Z => n_sold st == 0
  | 1%Z => 0 < n_sold st /\ 0 < leftover st
  | 2%Z => 0 < n_sold st /\ leftover st == 0 /\ profit st <= 0
  | 3%Z => 0 < n_sold st /\ leftover st == 0 /\ 0 < profit st
           /\ profit st < prev_profit st
  | 4%Z => 0 < n_sold st /\ leftover st == 0 /\ 0 < profit st
           /\ prev_profit st <= profit st
  | _ => False
  end.

(** The labor of a plan of [n] workers and [e] pieces of equipment, as the
    labor constraint is read on whole numbers. *)
Definition plan_labor (cfg : config) (n e : Z) : Q :=
  inject_Z n * labor_per_worker cfg
  + Qmin (inject_Z n) (inject_Z e) * labor_per_equipment cfg.

(** The wages [produce] adds up, starting from [wages], when the first
    wage query is interaction [t]. *)
Fixpoint total_wages (env : environment) (t : nat) (ws : list worker) (wages : Q) : Q :=
  match ws with
  | [] => wages
  | w :: ws' => total_wages env (S t) ws' (wages + wage_answer env t w)
  end.

(** The quantity and the price [produce] settles on, for a capacity. *)
Definition produced_quantity (st : state) (capacity : Z) : Q :=
  Qmax 1 (Qmin (desired_supply st) (inject_Z capacity)).

Definition produced_price (env : environment) (t : nat) (st : state) (capacity : Z) : Q :=
  Qmax 0 ((costs st + total_wages env t (workers st) 0) / produced_quantity st capacity
          + profit_margin st).

(** The sales of one step: [sell] called once for each requested quantity. *)
Fixpoint sell_all (quantities : list Q) : M (list Q) :=
  match quantities with
  | [] => ret []
  | q :: qs => n <- sell q ;; ns <- sell_all qs ;; ret (n :: ns)
  end.

(** The quantities sold from a supply [sup] to the requests [qs]. *)
Fixpoint sold (sup : Q) (qs : list Q) : list Q :=
  match qs with
  | [] => []
  | q :: qs' => Qmin sup q :: sold (sup - Qmin sup q) qs'
  end.

(** The sum of a list of quantities. *)
Fixpoint Qsum (l : list Q) : Q :=
  match l with
  | [] => 0
  | x :: l' => x + Qsum l'
  end.

(** The quantity a purchase settles on, from the cash, the shortfall, and
    the supplier's price and supply. *)
Definition purchase_quantity (cash shortfall price supply : Q) : Q :=
  let total_cost := shortfall * price in
  Qmin supply
    (if negb (truthy total_cost) then Qmax 0 shortfall
     else inject_Z (Qfloor (Qmax 0 (Qmin cash total_cost) / price))).

(** The materials a goods producer requires: its desired supply, capped by
    the capacity its labor would have with all the desired equipment. *)
Definition capped_desired_supply (cfg : config) (st : state) : Q :=
  Qmin (inject_Z (Qfloor (_labor_for_equipment cfg st (desired_equipment st)
                          / labor_cost_per_good cfg)))
       (desired_supply st).

Definition required_materials (cfg : config) (st : state) : Q :=
  material_cost_per_good cfg * capped_desired_supply cfg st.

(** The classes that have [purchase_materials]. *)
Definition buys_materials (c : firm_class) : bool :=
  match c with
  | ConsumerGoodFirm | CapitalEquipmentFirm => true
  | Firm | RawMaterialFirm => false
  end.

(** The workers a [shutdown] fires and those it leaves on the roster: the
    iterator skips the worker that moves into the place of the one fired. *)
Fixpoint fired_by_shutdown (l : list worker) : list worker :=
  match l with
  | [] => []
  | x :: l' =>
      x :: match l' with
           | [] => []
           | _ :: l'' => fired_by_shutdown l''
           end
  end.

Fixpoint kept_by_shutdown (l : list worker) : list worker :=
  match l with
  | [] => []
  | _ :: l' =>
      match l' with
      | [] => []
      | y :: l'' => y :: kept_by_shutdown l''
      end
  end.

(** No applicant ever names this firm as its employer. *)
Definition never_this_firm (env : environment) (applicants : list worker) : Prop :=
  forall t w, In w applicants -> employer_answer env t w <> Some ThisFirm.

(** [m] keeps [I]: when [I] holds of the state before, it holds of the
    state [m] leaves, whether [m] returns or raises. *)
Definition preserves {A} (I : state -> Prop) (m : M A) : Prop :=
  forall s, I (self s) -> I (self (snd (m s))).

(** The invariant of C6. *)
Definition supply_nonnegative (st : state) : Prop := 0 <= supply st.

(** A method that never stops for lack of fuel. *)
Definition never_out {A} (m : M A) : Prop :=
  forall s, fst (m s) <> OutOfFuel.

(** How a method leaves a store: not for lack of fuel, and with a supply
    that is not negative. *)
Definition leaves_supply_nonnegative {A} (m : M A) (s : store) : Prop :=
  fst (m s) <> OutOfFuel /\ 0 <= supply (self (snd (m s))).

(** ** Firms and environments for examples *)

(** A firm of the base class and a goods producer. *)
Definition example_config : config := {|
  class_of := Firm; labor_cost_per_good := 1; material_cost_per_good := 1;
  labor_per_equipment := 2; labor_per_worker := 1; supply_increment := 1;
  profit_increment := 1; wage_increment := 1 |}.

Definition example_goods_config : config := {|
  class_of := ConsumerGoodFirm; labor_cost_per_good := 1;
  material_cost_per_good := 1; labor_per_equipment := 2; labor_per_worker := 1;
  supply_increment := 1; profit_increment := 1; wage_increment := 1 |}.

Definition example_world : world := {| mean_wage := 10; mean_equip_price := 4 |}.

(** An environment for examples: no worker has an employer, every wage is
    10, the supplier sells at 10 and has 8 pieces, the first element is
    drawn, the first action is chosen, the minimizer answers (5/2, 19/2, 1/2). *)
Definition example_env : environment := {|
  employer_answer := fun _ _ => None;
  wage_answer := fun _ _ => 10;
  supplier_answer := fun _ => (10, 8);
  random_draw := fun _ => 0%nat;
  choose_action := fun _ _ => 0%nat;
  minimize := fun _ _ _ _ _ => (5 # 2, 19 # 2, 1 # 2) |}.

(** A supplier that gives away what it has: 3 pieces at a price of 0. *)
Definition free_supplier_env : environment := {|
  employer_answer := fun _ _ => None;
  wage_answer := fun _ _ => 10;
  supplier_answer := fun _ => (0, 3);
  random_draw := fun _ => 0%nat;
  choose_action := fun _ _ => 0%nat;
  minimize := fun _ _ _ _ _ => (1, 0, 0) |}.

(** Every worker names this firm as its employer. *)
Definition own_workers_env : environment := {|
  employer_answer := fun _ _ => Some ThisFirm;
  wage_answer := fun _ _ => 10;
  supplier_answer := fun _ => (10, 8);
  random_draw := fun _ => 0%nat;
  choose_action := fun _ _ => 0%nat;
  minimize := fun _ _ _ _ _ => (1, 0, 0) |}.

(** Worker 5 is employed by firm 9, the others have no employer. *)
Definition poaching_env : environment := {|
  employer_answer := fun _ w => if Nat.eqb w 5 then Some (OtherFirm 9%nat) else None;
  wage_answer := fun _ _ => 10;
  supplier_answer := fun _ => (10, 8);
  random_draw := fun _ => 0%nat;
  choose_action := fun _ _ => 0%nat;
  minimize := fun _ _ _ _ _ => (1, 0, 0) |}.

(** Worker 7 names this firm as its employer, the others have none. *)
Definition claimed_env : environment := {|
  employer_answer := fun _ w => if Nat.eqb w 7 then Some ThisFirm else None;
  wage_answer := fun _ _ => 10;
  supplier_answer := fun _ => (10, 8);
  random_draw := fun _ => 0%nat;
  choose_action := fun _ _ => 0%nat;
  minimize := fun _ _ _ _ _ => (1, 0, 0) |}.

(** A firm that wants 5 pieces of equipment; a goods producer with three
    workers that wants to supply 5 goods. *)
Definition wants_equipment : state := set_desired_equipment 5 initial_state.

Definition wants_materials : state :=
  set_desired_supply 5 (set_workers [1%nat; 2%nat; 3%nat] initial_state).

(** A firm with two workers and three vacancies, and two applicants. *)
Definition short_of_workers : state :=
  set_worker_change 3 (set_workers [1%nat; 2%nat] initial_state).

(** ** Further vocabulary *)

(** The capacity the labor alone, and the materials alone, allow. *)
Definition labor_capacity (cfg : config) (st : state) : Z :=
  Qfloor (_labor cfg st / labor_cost_per_good cfg).

Definition material_capacity (cfg : config) (st : state) : Z :=
  Qfloor (materials st / material_cost_per_good cfg).


(** The calls the simulation makes on a firm. *)
Inductive operation : Type :=
| SetProductionTarget (w : world)
| Hire (applicants : list worker) (wage : Q)
| Fire (w : worker)
| Shutdown
| PurchaseEquipment
| PurchaseMaterials
| Produce (w : world)
| Sell (quantity : Q).

(** The store a call leaves, whether it returns or raises. *)
Definition after_operation (cfg : config) (env : environment) (o : operation)
    (s : store) : store :=
  match o with
  | SetProductionTarget w => snd (set_production_target cfg env w s)
  | Hire applicants wage => snd (hire cfg env applicants wage s)
  | Fire w => snd (fire w s)
  | Shutdown => snd (shutdown s)
  | PurchaseEquipment => snd (purchase_equipment env s)
  | PurchaseMaterials => snd (purchase_materials cfg env s)
  | Produce w => snd (produce cfg env w s)
  | Sell quantity => snd (sell quantity s)
  end.

(** The store after a sequence of calls, the caller going on after an
    exception. *)
Fixpoint after_operations (cfg : config) (env : environment) (ops : list operation)
    (s : store) : store :=
  match ops with
  | [] => s
  | o :: ops' => after_operations cfg env ops' (after_operation cfg env o s)
  end.

(** The state the classifier is asked about in [set_production_target]: the
    previous day's profit and leftover recorded. *)
Definition assessed (st : state) : state :=
  set_leftover (supply st) (set_prev_profit (profit st) st).

(** The action the learner picks for a state, when its index is one of the
    six. *)
Definition chosen_action (cfg : config) (env : environment) (s : store)
  : option action :=
  nth_error (actions cfg) (choose_action env (tick s) (curren (assessed (self s)))).

(** The store after [n] calls of [shutdown]. *)
Fixpoint after_shutdowns (n : nat) (s : store) : store :=
  match n with
  | O => s
  | S n' => after_shutdowns n' (snd (shutdown s))
  end.

(** The instructions [hire] sends for the workers it hires, in order, when
    the first of them is drawn at interaction [t]: for each worker the hire
    at the wage offered, preceded, when the worker answers with an employer,
    by the fire at that employer (the worker's quit when the employer is
    this firm).  The draw of a worker, the question for its employer and
    each instruction are interactions. *)
Fixpoint hire_events (env : environment) (wage : Q) (t : nat) (ws : list worker)
  : list event :=
  match ws with
  | [] => []
  | w :: ws' =>
      match employer_answer env (S t) w with
      | None => WorkerHire w wage :: hire_events env wage (S (S (S t))) ws'
      | Some (OtherFirm f) =>
          EmployerFire f w :: WorkerHire w wage
            :: hire_events env wage (S (S (S (S t)))) ws'
      | Some ThisFirm =>
          WorkerQuit w :: WorkerHire w wage
            :: hire_events env wage (S (S (S (S t)))) ws'
      end
  end.

(** ** Running the monad in proofs *)

Ltac py_unfold :=
  unfold bind, ret, raise, out_of_fuel, get, modify, emit, ask, eval, pay.

(** Reduces the projections of the stores and states that are built along
    a run, and nothing else. *)
Ltac py_cbn :=
  cbn [self sent tick fst snd
       desired_supply desired_equipment worker_change workers cash revenue
       costs price profit prev_profit leftover supply n_sold profit_margin
       equipment materials
       set_desired_supply set_desired_equipment set_worker_change set_workers
       set_cash set_revenue set_costs set_price set_prev_profit set_leftover
       set_supply set_n_sold set_profit_margin set_equipment set_materials].

Ltac py_run := py_unfold; py_cbn.

Tactic Notation "py_cbn" "in" hyp(H) :=
  cbn [self sent tick fst snd
       desired_supply desired_equipment worker_change workers cash revenue
       costs price profit prev_profit leftover supply n_sold profit_margin
       equipment materials
       set_desired_supply set_desired_equipment set_worker_change set_workers
       set_cash set_revenue set_costs set_price set_prev_profit set_leftover
       set_supply set_n_sold set_profit_margin set_equipment set_materials] in H.

(** ** Facts about the numbers *)

Lemma Qltb_lt (x y : Q) : Qltb x y = true <-> x < y.
Proof.
  unfold Qltb. rewrite negb_true_iff. split; intro H.
  - apply Qnot_le_lt. intro L. apply Qle_bool_iff in L. congruence.
  - destruct (Qle_bool y x) eqn:E; [| reflexivity].
    apply Qle_bool_iff in E. exfalso. apply (Qlt_not_le _ _ H E).
Qed.

Lemma Qltb_ge (x y : Q) : Qltb x y = false <-> y <= x.
Proof.
  unfold Qltb. rewrite negb_false_iff. apply Qle_bool_iff.
Qed.

Lemma Qle_bool_gt (x y : Q) : Qle_bool x y = false <-> y < x.
Proof.
  rewrite <- Qltb_lt. unfold Qltb. rewrite negb_true_iff. reflexivity.
Qed.

Lemma Qeq_bool_false (x y : Q) : Qeq_bool x y = false <-> ~ x == y.
Proof.
  split.
  - apply Qeq_bool_neq.
  - intro N. destruct (Qeq_bool x y) eqn:E; [| reflexivity].
    apply Qeq_bool_iff in E. contradiction.
Qed.

Lemma Qmin_mono (a b c d : Q) : a <= b -> c <= d -> Qmin a c <= Qmin b d.
Proof. apply Q.min_le_compat. Qed.

Lemma Qnat_le (n m : nat) : (n <= m)%nat -> Qnat n <= Qnat m.
Proof.
  intro H. unfold Qnat. rewrite <- Zle_Qle. lia.
Qed.

Lemma Qmax_one_pos (x : Q) : 0 < Qmax 1 x.
Proof.
  apply Qlt_le_trans with 1; [reflexivity | apply Q.le_max_l].
Qed.

Lemma Qsub_min_nonneg (s q : Q) : 0 <= s - Qmin s q.
Proof.
  pose proof (Q.le_min_l s q). lra.
Qed.

(** ** Labor model *)

Section LaborFacts.

Variable cfg : config.
Hypothesis worker_yield : 0 <= labor_per_worker cfg.
Hypothesis equipment_yield : 0 <= labor_per_equipment cfg.

Lemma worker_labor_mono (s1 s2 : state) :
  (length (workers s1) <= length (workers s2))%nat ->
  _worker_labor cfg s1 <= _worker_labor cfg s2.
Proof.
  intro H. unfold _worker_labor.
  rewrite (Qmult_comm _ (Qnat (length (workers s1)))).
  rewrite (Qmult_comm _ (Qnat (length (workers s2)))).
  apply Qmult_le_compat_r; [apply Qnat_le; exact H | exact worker_yield].
Qed.

Lemma equipment_labor_mono (s1 s2 : state) :
  (length (workers s1) <= length (workers s2))%nat ->
  equipment s1 <= equipment s2 ->
  _equipment_labor cfg s1 <= _equipment_labor cfg s2.
Proof.
  intros Hw He. unfold _equipment_labor.
  apply Qmult_le_compat_r; [| exact equipment_yield].
  apply Qmin_mono; [apply Qnat_le; exact Hw | exact He].
Qed.

Lemma equipment_labor_saturated (s1 s2 : state) :
  length (workers s1) = length (workers s2) ->
  Qnat (length (workers s1)) <= equipment s1 ->
  equipment s1 <= equipment s2 ->
  _equipment_labor cfg s1 == _equipment_labor cfg s2.
Proof.
  intros Hw H1 H2. unfold _equipment_labor. rewrite <- Hw.
  rewrite (Q.min_l _ (equipment s1)) by exact H1.
  rewrite (Q.min_l _ (equipment s2)) by (eapply Qle_trans; eassumption).
  reflexivity.
Qed.

End LaborFacts.

(** C8.  With non-negative labor per worker and per equipment, total labor
    does not decrease when the number of workers or the amount of equipment
    grows, and equipment beyond the number of workers adds no labor. *)
Theorem labor_monotone (cfg : config) (s1 s2 : state) :
  0 <= labor_per_worker cfg ->
  0 <= labor_per_equipment cfg ->
  ((length (workers s1) <= length (workers s2))%nat ->
   equipment s1 <= equipment s2 ->
   _labor cfg s1 <= _labor cfg s2)
  /\
  (length (workers s1) = length (workers s2) ->
   Qnat (length (workers s1)) <= equipment s1 ->
   equipment s1 <= equipment s2 ->
   _labor cfg s1 == _labor cfg s2).
Proof.
  intros Hw He. split.
  - intros Hn Hq. unfold _labor.
    apply Qplus_le_compat.
    + apply worker_labor_mono; assumption.
    + apply equipment_labor_mono; assumption.
  - intros Hn H1 H2. unfold _labor.
    rewrite (equipment_labor_saturated cfg s1 s2 Hn H1 H2).
    unfold _worker_labor. rewrite Hn. reflexivity.
Qed.

Lemma labor_monotone_witness :
  _labor example_config (set_workers [1%nat] initial_state)
  <= _labor example_config (set_equipment 3 (set_workers [1%nat; 2%nat] initial_state))
  /\ _labor example_config (set_equipment 1 (set_workers [1%nat] initial_state))
     == _labor example_config (set_equipment 7 (set_workers [2%nat] initial_state)).
Proof.
  split.
  - apply (labor_monotone example_config
             (set_workers [1%nat] initial_state)
             (set_equipment 3 (set_workers [1%nat; 2%nat] initial_state)));
      simpl; try lra; try lia.
  - apply (labor_monotone example_config
             (set_equipment 1 (set_workers [1%nat] initial_state))
             (set_equipment 7 (set_workers [2%nat] initial_state)));
      simpl; try lra; try lia; try reflexivity.
    unfold Qnat, Qle; simpl; lia.
Defined.

(** ** Outcome classifier *)

Lemma fires_unique (st : state) (j k : Z) :
  fires j st -> fires k st -> j = k.
Proof.
  unfold fires.
  destruct j as [| [[[]|[]|]|[[]|[]|]|] |]; try contradiction;
  destruct k as [| [[[]|[]|]|[[]|[]|]|] |]; try contradiction;
  intros; try reflexivity; exfalso; intuition lra.
Qed.

Lemma curren_fires (st : state) :
  0 <= n_sold st -> 0 <= leftover st ->
  exists k : Z, curren st = Some k /\ fires k st.
Proof.
  intros Hn Hl.
  unfold curren.
  destruct (Qeq_bool (n_sold st) 0) eqn:E0.
  { exists 0%Z. split; [reflexivity | apply Qeq_bool_iff; exact E0]. }
  apply Qeq_bool_false in E0.
  assert (Hpos : 0 < n_sold st).
  { apply Qle_lteq in Hn. destruct Hn as [H | H]; [exact H |].
    exfalso. apply E0. symmetry. exact H. }
  assert (B : Qltb 0 (n_sold st) = true) by (apply Qltb_lt; exact Hpos).
  rewrite B. simpl.
  destruct (Qltb 0 (leftover st)) eqn:E1.
  { exists 1%Z. split; [reflexivity |].
    apply Qltb_lt in E1. simpl. tauto. }
  apply Qltb_ge in E1.
  assert (L0 : leftover st == 0) by (apply Qle_antisym; assumption).
  assert (B1 : Qeq_bool (leftover st) 0 = true) by (apply Qeq_bool_iff; exact L0).
  rewrite B1.
  destruct (Qle_bool (profit st) 0) eqn:E2.
  { exists 2%Z. split; [reflexivity |].
    apply Qle_bool_iff in E2. simpl. tauto. }
  apply Qle_bool_gt in E2.
  assert (B2 : Qltb 0 (profit st) = true) by (apply Qltb_lt; exact E2).
  rewrite B2.
  destruct (Qltb (profit st - prev_profit st) 0) eqn:E3.
  { exists 3%Z. split; [reflexivity |].
    apply Qltb_lt in E3. simpl. repeat split; try assumption. lra. }
  apply Qltb_ge in E3.
  assert (B3 : Qle_bool 0 (profit st - prev_profit st) = true)
    by (apply Qle_bool_iff; exact E3).
  rewrite B3.
  exists 4%Z. split; [reflexivity |].
  simpl. repeat split; try assumption. lra.
Qed.

(** The code of each case, as the table of the classifier gives it. *)
Lemma curren_code (st : state) (k : Z) :
  0 <= n_sold st -> 0 <= leftover st -> fires k st -> curren st = Some k.
Proof.
  intros Hn Hl Hk.
  destruct (curren_fires st Hn Hl) as [k' [E F]].
  rewrite (fires_unique st k k' Hk F). exact E.
Qed.

(** C3.  With [n_sold >= 0] and [leftover >= 0] the classifier returns a
    code, the rule of that code fires, and no other rule does: the code is
    0 when nothing is sold, 1 when something is sold and something is left,
    2 when all is sold and the profit is not positive, 3 when all is sold
    with a positive profit below the previous one, 4 when all is sold with a
    positive profit at or above the previous one. *)
Theorem curren_total_deterministic (st : state) :
  0 <= n_sold st -> 0 <= leftover st ->
  exists k : Z,
    curren st = Some k /\ fires k st /\ forall j, fires j st -> j = k.
Proof.
  intros Hn Hl.
  destruct (curren_fires st Hn Hl) as [k [Hk Hf]].
  exists k. split; [exact Hk |]. split; [exact Hf |].
  intros j Hj. apply (fires_unique st); assumption.
Qed.

Lemma curren_total_deterministic_witness :
  exists k : Z,
    curren (set_n_sold 3 initial_state) = Some k
    /\ fires k (set_n_sold 3 initial_state)
    /\ forall j, fires j (set_n_sold 3 initial_state) -> j = k.
Proof.
  apply (curren_total_deterministic (set_n_sold 3 initial_state)); simpl; lra.
Defined.

(** ** Asset optimizer *)

Lemma equip_labor_le (l a c a' c' : Q) :
  0 <= l -> a <= a' -> c <= c' ->
  Qmin (a * l) (c * l) <= Qmin a' c' * l.
Proof.
  intros Hl Ha Hc.
  destruct (Q.min_spec a' c') as [[_ E] | [_ E]]; rewrite E.
  - eapply Qle_trans; [apply Q.le_min_l |].
    apply Qmult_le_compat_r; assumption.
  - eapply Qle_trans; [apply Q.le_min_r |].
    apply Qmult_le_compat_r; assumption.
Qed.

Lemma in_int64_bounds (z : Z) :
  in_int64 z = true <-> (int64_min <= z <= int64_max)%Z.
Proof.
  unfold in_int64. rewrite andb_true_iff, Z.leb_le, Z.leb_le. tauto.
Qed.

Lemma astype_int_id (z : Z) : in_int64 z = true -> astype_int z = z.
Proof. intro H. unfold astype_int. rewrite H. reflexivity. Qed.

Lemma astype_int_out (z : Z) : in_int64 z = false -> astype_int z = int64_min.
Proof. intro H. unfold astype_int. rewrite H. reflexivity. Qed.

(** The conversion gives a 64-bit integer, whatever it is given. *)
Lemma astype_int_range (z : Z) : in_int64 (astype_int z) = true.
Proof.
  unfold astype_int. destruct (in_int64 z) eqn:E; [exact E | reflexivity].
Qed.

(** The conversion loses nothing of a number that is not above the greatest
    64-bit integer. *)
Lemma astype_int_ge (z : Z) : (z <= int64_max)%Z -> (z <= astype_int z)%Z.
Proof.
  intro H. unfold astype_int. destruct (in_int64 z) eqn:E; [lia |].
  unfold in_int64 in E. apply andb_false_iff in E.
  destruct E as [E | E]; [apply Z.leb_gt in E | apply Z.leb_gt in E]; lia.
Qed.

Lemma ceil_vec_components (x : vec) :
  ceil_vec x = (astype_int (Qceiling (fst (fst x))),
                astype_int (Qceiling (snd (fst x))),
                astype_int (Qceiling (snd x))).
Proof. destruct x as [[a b] c]. reflexivity. Qed.

Lemma ceil_vec_constraint (cfg : config) (required_labor : Q) (x : vec) :
  0 <= labor_per_worker cfg ->
  0 <= labor_per_equipment cfg ->
  (Qceiling (fst (fst x)) <= int64_max)%Z ->
  (Qceiling (snd x) <= int64_max)%Z ->
  0 <= constraint cfg required_labor x ->
  let '(n, _, e) := ceil_vec x in required_labor <= plan_labor cfg n e.
Proof.
  destruct x as [[a b] c]. cbn [fst snd]. intros Hw He Hna Hnc Hc.
  cbn [ceil_vec constraint] in *. unfold plan_labor.
  assert (Ha : a <= inject_Z (astype_int (Qceiling a))).
  { eapply Qle_trans; [apply Qle_ceiling |].
    rewrite <- Zle_Qle. apply astype_int_ge. exact Hna. }
  assert (Hcc : c <= inject_Z (astype_int (Qceiling c))).
  { eapply Qle_trans; [apply Qle_ceiling |].
    rewrite <- Zle_Qle. apply astype_int_ge. exact Hnc. }
  pose proof (equip_labor_le _ _ _ _ _ He Ha Hcc) as Hmin.
  pose proof (Qmult_le_compat_r _ _ _ Ha Hw) as Hmul.
  lra.
Qed.

(** C7, as the code has it.  With a labor per worker and a labor per
    equipment that are not negative: when the vector the minimizer returns
    satisfies the labor constraint, and its worker and equipment components,
    rounded up, do not exceed the greatest 64-bit integer, the plan
    [assess_assets] returns, the component-wise ceiling converted to 64-bit
    integers, provides at least the required labor. *)
Theorem assess_assets_rounding (cfg : config) (env : environment)
    (required_labor mean_wage mean_equip_price : Q) (s : store) :
  let x := results_x cfg env required_labor mean_wage mean_equip_price (tick s) in
  0 <= labor_per_worker cfg ->
  0 <= labor_per_equipment cfg ->
  (Qceiling (fst (fst x)) <= int64_max)%Z ->
  (Qceiling (snd x) <= int64_max)%Z ->
  0 <= constraint cfg required_labor x ->
  exists (n wage e : Z) (s' : store),
    assess_assets cfg env required_labor mean_wage mean_equip_price s
      = (Return (n, wage, e), s')
    /\ (n, wage, e) = ceil_vec x
    /\ required_labor <= plan_labor cfg n e.
Proof.
  intros x Hw He Hn Hq Hc.
  pose proof (ceil_vec_constraint cfg required_labor x Hw He Hn Hq Hc) as H.
  destruct (ceil_vec x) as [[n wage] e] eqn:E.
  exists n, wage, e. eexists. split; [| split; [reflexivity | exact H]].
  unfold assess_assets, bind, ask, ret. cbn [fst snd tick]. fold x.
  rewrite E. reflexivity.
Qed.

Lemma assess_assets_rounding_witness :
  exists (n wage e : Z) (s' : store),
    assess_assets example_config example_env 3 10 4 (start initial_state)
      = (Return (n, wage, e), s')
    /\ (n, wage, e)
       = ceil_vec (results_x example_config example_env 3 10 4 0%nat)
    /\ 3 <= plan_labor example_config n e.
Proof.
  apply (assess_assets_rounding example_config example_env 3 10 4 (start initial_state));
    try (unfold Qle; simpl; lia); vm_compute; discriminate.
Defined.

(** C7 fails as it is stated, in two ways.  With a negative labor per
    worker, rounding the workforce up loses labor: the answer (3/2, 0, 1)
    meets a requirement of 3/2 and the plan (2, 0, 1) does not.  And the
    ceiling is converted to a 64-bit integer: the answer (10^19, 19/2, 0)
    meets a requirement of 3 and comes back as a workforce of -2^63. *)
Lemma assess_assets_rounding_counterexample :
  (let cfg := {| class_of := Firm; labor_cost_per_good := 1;
                 material_cost_per_good := 1; labor_per_equipment := 3;
                 labor_per_worker := - (1); supply_increment := 1;
                 profit_increment := 1; wage_increment := 1 |} in
   let env := {| employer_answer := fun _ _ => None;
                 wage_answer := fun _ _ => 10;
                 supplier_answer := fun _ => (10, 8);
                 random_draw := fun _ => 0%nat;
                 choose_action := fun _ _ => 0%nat;
                 minimize := fun _ _ _ _ _ => (3 # 2, 0, 1) |} in
   0 <= constraint cfg (3 # 2) (results_x cfg env (3 # 2) 10 4 0%nat)
   /\ fst (assess_assets cfg env (3 # 2) 10 4 (start initial_state))
      = Return (2, 0, 1)%Z
   /\ ~ (3 # 2) <= plan_labor cfg 2 1)
  /\
  (let env := {| employer_answer := fun _ _ => None;
                 wage_answer := fun _ _ => 10;
                 supplier_answer := fun _ => (10, 8);
                 random_draw := fun _ => 0%nat;
                 choose_action := fun _ _ => 0%nat;
                 minimize := fun _ _ _ _ _ =>
                               (10000000000000000000, 19 # 2, 0) |} in
   0 <= labor_per_worker example_config
   /\ 0 <= labor_per_equipment example_config
   /\ 0 <= constraint example_config 3 (results_x example_config env 3 10 4 0%nat)
   /\ fst (assess_assets example_config env 3 10 4 (start initial_state))
      = Return (int64_min, 10, 0)%Z
   /\ ~ 3 <= plan_labor example_config int64_min 0).
Proof.
  split.
  - cbv zeta. split; [vm_compute; discriminate |].
    split; [vm_compute; reflexivity |].
    intro H. vm_compute in H. apply H. reflexivity.
  - cbv zeta. split; [vm_compute; discriminate |].
    split; [vm_compute; discriminate |].
    split; [vm_compute; discriminate |].
    split; [vm_compute; reflexivity |].
    intro H. vm_compute in H. apply H. reflexivity.
Qed.

(** ** Selling *)

Lemma sell_run (q : Q) (s : store) :
  sell q s =
  (Return (Qmin (supply (self s)) q),
   {| self :=
        set_cash (cash (self s) + price (self s) * Qmin (supply (self s)) q)
          (set_revenue (price (self s) * Qmin (supply (self s)) q)
             (set_n_sold (n_sold (self s) + Qmin (supply (self s)) q)
                (set_supply (supply (self s) - Qmin (supply (self s)) q) (self s))));
      sent := sent s; tick := tick s |}).
Proof. reflexivity. Qed.

Lemma sold_length (qs : list Q) (sup : Q) : length (sold sup qs) = length qs.
Proof.
  revert sup. induction qs as [| q qs IH]; intro sup; simpl.
  - reflexivity.
  - rewrite IH. reflexivity.
Qed.

Lemma sell_all_run (qs : list Q) (s : store) :
  exists s' : store,
    sell_all qs s = (Return (sold (supply (self s)) qs), s')
    /\ price (self s') = price (self s)
    /\ cash (self s') == cash (self s) + price (self s) * Qsum (sold (supply (self s)) qs)
    /\ n_sold (self s') == n_sold (self s) + Qsum (sold (supply (self s)) qs)
    /\ match qs with
       | [] => revenue (self s') = revenue (self s)
       | _ => revenue (self s') == price (self s) * last (sold (supply (self s)) qs) 0
       end.
Proof.
  revert s. induction qs as [| q qs IH]; intro s.
  - exists s. simpl. repeat split; try reflexivity; ring.
  - simpl sell_all. unfold bind at 1. rewrite sell_run.
    match goal with |- context [ {| self := ?a; sent := ?b; tick := ?c |} ] =>
      destruct (IH {| self := a; sent := b; tick := c |})
        as [s' [Hrun [Hp [Hc [Hn Hr]]]]] end.
    simpl in Hrun, Hp, Hc, Hn, Hr.
    exists s'. unfold bind. rewrite Hrun. simpl.
    split; [reflexivity |]. split; [exact Hp |].
    split; [rewrite Hc; ring |]. split; [rewrite Hn; ring |].
    destruct qs as [| q' qs'].
    + simpl in *. rewrite Hr. reflexivity.
    + exact Hr.
Qed.



(** ** Producing *)

Lemma sum_wages_run (env : environment) (ws : list worker) (wages : Q) (s : store) :
  sum_wages env ws wages s =
  (Return (total_wages env (tick s) ws wages),
   {| self := self s; sent := sent s; tick := (length ws + tick s)%nat |}).
Proof.
  revert wages s. induction ws as [| w ws IH]; intros wages s.
  - destruct s; reflexivity.
  - simpl. unfold bind, ask. rewrite IH. simpl.
    rewrite Nat.add_succ_r. reflexivity.
Qed.

Lemma Qmax_one_nonzero (x : Q) : Qeq_bool (Qmax 1 x) 0 = false.
Proof.
  apply Qeq_bool_false. intro H. pose proof (Qmax_one_pos x) as P.
  rewrite H in P. apply (Qlt_irrefl 0 P).
Qed.

Lemma produce_run (cfg : config) (env : environment) (w : world) (s : store)
    (capacity : Z) :
  _production_capacity cfg (self s) = Return capacity ->
  produce cfg env w s =
  (Return (produced_quantity (self s) capacity,
           produced_price env (tick s) (self s) capacity),
   {| self :=
        set_price (produced_price env (tick s) (self s) capacity)
          (set_cash (cash (self s) - total_wages env (tick s) (workers (self s)) 0)
             (set_costs (costs (self s) + total_wages env (tick s) (workers (self s)) 0)
                (set_supply (produced_quantity (self s) capacity) (self s))));
      sent := sent s;
      tick := (length (workers (self s)) + tick s)%nat |}).
Proof.
  intro Hcap. unfold produce, bind at 1, eval. rewrite Hcap.
  unfold bind at 1, get. unfold bind at 1, modify. simpl self.
  unfold bind at 1. simpl self.
  unfold bind at 1. rewrite sum_wages_run. simpl.
  unfold bind, get, modify, eval, truediv. simpl.
  fold (produced_quantity (self s) capacity).
  unfold produced_quantity at 1. rewrite Qmax_one_nonzero.
  reflexivity.
Qed.

(** C1.  A firm without workers has a production capacity of 0, and
    [produce] makes it supply 1 unit all the same: the supply is set to
    max(1, min(desired supply, capacity)), where the documentation of
    [produce] has the firm produce what it can, and the claim has it produce
    min(desired supply, capacity) = 0. *)
Theorem produce_exceeds_capacity :
  let st := initial_state in
  let r := produce example_config example_env example_world (start st) in
  workers st = []
  /\ _production_capacity example_config st = Return 0%Z
  /\ Qmin (desired_supply st) (inject_Z 0) == 0
  /\ fst r = Return (1, 1)
  /\ supply (self (snd r)) == 1
  /\ ~ supply (self (snd r)) == Qmin (desired_supply st) (inject_Z 0).
Proof.
  vm_compute. repeat split; try reflexivity. intro H. discriminate H.
Qed.

(** ** Purchases *)

Lemma nonzero_cost_nonzero_price (shortfall price : Q) :
  Qeq_bool (shortfall * price) 0 = false -> Qeq_bool price 0 = false.
Proof.
  intro H. apply Qeq_bool_false. apply Qeq_bool_false in H.
  intro P. apply H. rewrite P. ring.
Qed.

Lemma purchase_equipment_run (env : environment) (s : store) (p sup : Q) :
  supplier_answer env (tick s) = (p, sup) ->
  let q := purchase_quantity (cash (self s))
             (desired_equipment (self s) - equipment (self s)) p sup in
  purchase_equipment env s =
  (Return (desired_equipment (self s) - (equipment (self s) + q), q),
   {| self := set_costs (costs (self s) + q * p)
                (set_cash (cash (self s) - q * p)
                   (set_equipment (equipment (self s) + q) (self s)));
      sent := sent s ++ [SupplierSell q];
      tick := S (S (tick s)) |}).
Proof.
  intros Hsup q. unfold purchase_equipment. py_run. rewrite Hsup. py_cbn.
  unfold q, purchase_quantity.
  destruct (truthy ((desired_equipment (self s) - equipment (self s)) * p)) eqn:T;
    cbn [negb]; py_cbn.
  - unfold truthy in T. apply negb_true_iff in T.
    unfold truediv. rewrite (nonzero_cost_nonzero_price _ _ T). reflexivity.
  - reflexivity.
Qed.

Lemma purchase_materials_run (cfg : config) (env : environment) (s : store) (p sup : Q) :
  buys_materials (class_of cfg) = true ->
  ~ labor_cost_per_good cfg == 0 ->
  supplier_answer env (tick s) = (p, sup) ->
  let q := purchase_quantity (cash (self s))
             (required_materials cfg (self s) - materials (self s)) p sup in
  purchase_materials cfg env s =
  (Return (required_materials cfg (self s) - (materials (self s) + q), q),
   {| self := set_costs (costs (self s) + q * p)
                (set_cash (cash (self s) - q * p)
                   (set_materials (materials (self s) + q)
                      (set_desired_supply (capped_desired_supply cfg (self s)) (self s))));
      sent := sent s ++ [SupplierSell q];
      tick := S (S (tick s)) |}).
Proof.
  intros Hc Hl Hsup q. apply Qeq_bool_false in Hl.
  unfold purchase_materials.
  destruct (class_of cfg); try discriminate Hc;
    py_run; rewrite Hsup; unfold truediv at 1; rewrite Hl; py_cbn;
    fold (capped_desired_supply cfg (self s));
    fold (required_materials cfg (self s));
    unfold q, purchase_quantity;
    (destruct (truthy ((required_materials cfg (self s) - materials (self s)) * p)) eqn:T;
     cbn [negb]; py_cbn;
     [ unfold truthy in T; apply negb_true_iff in T;
       unfold truediv; rewrite (nonzero_cost_nonzero_price _ _ T); reflexivity
     | reflexivity ]).
Qed.

Lemma zero_price_falsy (shortfall p : Q) : p == 0 -> truthy (shortfall * p) = false.
Proof.
  intro E. unfold truthy. apply negb_false_iff. apply Qeq_bool_iff.
  rewrite E. ring.
Qed.

Lemma purchase_quantity_zero_price (k shortfall p sup : Q) :
  p == 0 ->
  purchase_quantity k shortfall p sup = Qmin sup (Qmax 0 shortfall).
Proof.
  intro H. unfold purchase_quantity. rewrite (zero_price_falsy _ _ H). reflexivity.
Qed.

(** What the code does where C9 says otherwise.  A purchase of equipment
    always returns; so does a purchase of materials by a firm that buys
    materials and whose labor cost per good is not zero: the division by the
    price is only made on a non-zero cost, hence by a non-zero price.  At a
    price of zero the quantity asked for is the shortfall clamped at 0, and
    the purchase is the smaller of it and the supplier's supply: the
    clamped shortfall itself when the supply covers it. *)
Theorem purchases_return (cfg : config) (env : environment)
    (s : store) (p sup : Q) :
  supplier_answer env (tick s) = (p, sup) ->
  (let shortfall := desired_equipment (self s) - equipment (self s) in
   exists (rest q : Q) (s' : store),
     purchase_equipment env s = (Return (rest, q), s')
     /\ (p == 0 -> q = Qmin sup (Qmax 0 shortfall))
     /\ (p == 0 -> Qmax 0 shortfall <= sup -> q == Qmax 0 shortfall))
  /\
  (let shortfall := required_materials cfg (self s) - materials (self s) in
   buys_materials (class_of cfg) = true ->
   ~ labor_cost_per_good cfg == 0 ->
   exists (rest q : Q) (s' : store),
     purchase_materials cfg env s = (Return (rest, q), s')
     /\ (p == 0 -> q = Qmin sup (Qmax 0 shortfall))
     /\ (p == 0 -> Qmax 0 shortfall <= sup -> q == Qmax 0 shortfall)).
Proof.
  intro Hsup. split.
  - intro shortfall.
    rewrite (purchase_equipment_run env s p sup Hsup).
    do 3 eexists. split; [reflexivity |]. split.
    + intro Hp. apply purchase_quantity_zero_price. exact Hp.
    + intros Hp Hle. rewrite (purchase_quantity_zero_price _ _ _ _ Hp).
      apply Q.min_r. exact Hle.
  - intros shortfall Hc Hl.
    rewrite (purchase_materials_run cfg env s p sup Hc Hl Hsup).
    do 3 eexists. split; [reflexivity |]. split.
    + intro Hp. apply purchase_quantity_zero_price. exact Hp.
    + intros Hp Hle. rewrite (purchase_quantity_zero_price _ _ _ _ Hp).
      apply Q.min_r. exact Hle.
Qed.

Lemma purchases_return_witness :
  (exists (rest q : Q) (s' : store),
     purchase_equipment free_supplier_env (start wants_equipment)
       = (Return (rest, q), s')
     /\ q == 3)
  /\
  (exists (rest q : Q) (s' : store),
     purchase_materials example_goods_config free_supplier_env (start wants_materials)
       = (Return (rest, q), s')
     /\ q == 3).
Proof.
  destruct (purchases_return example_goods_config free_supplier_env
              (start wants_equipment) 0 3 eq_refl) as [He _].
  destruct (purchases_return example_goods_config free_supplier_env
              (start wants_materials) 0 3 eq_refl) as [_ Hm].
  split.
  - destruct He as [rest [q [s' [Hrun [Hq _]]]]].
    exists rest, q, s'. split; [exact Hrun |].
    rewrite Hq by reflexivity. vm_compute; reflexivity.
  - destruct Hm as [rest [q [s' [Hrun [_ Hq]]]]].
    { reflexivity. }
    { unfold Qeq; simpl; lia. }
    exists rest, q, s'. split; [exact Hrun |].
    apply Hq; [reflexivity | vm_compute; discriminate].
Defined.

(** C9 fails in its last part: at a price of 0, with a shortfall of 5 and a
    supplier that has 3, the purchase is 3, not the shortfall. *)
Lemma purchase_zero_price_counterexample :
  let r := purchase_equipment free_supplier_env (start wants_equipment) in
  supplier_answer free_supplier_env 0 = (0, 3)
  /\ desired_equipment wants_equipment - equipment wants_equipment == 5
  /\ (exists rest, fst r = Return (rest, 3))
  /\ equipment (self (snd r)) == 3
  /\ ~ 3 == Qmax 0 (desired_equipment wants_equipment - equipment wants_equipment).
Proof.
  vm_compute. repeat split; try reflexivity.
  - eexists. reflexivity.
  - intro H. discriminate H.
Qed.

(** The capacity [purchase_materials] first computes divides by the labor
    cost per good: at zero the purchase raises before the supplier is asked
    to sell. *)
Remark purchase_materials_zero_labor_cost :
  let cfg := {| class_of := ConsumerGoodFirm; labor_cost_per_good := 0;
                material_cost_per_good := 1; labor_per_equipment := 2;
                labor_per_worker := 1; supply_increment := 1;
                profit_increment := 1; wage_increment := 1 |} in
  let r := purchase_materials cfg example_env (start wants_materials) in
  fst r = Raise ZeroDivisionError /\ sent (snd r) = [].
Proof.
  vm_compute. split; reflexivity.
Qed.

(** ** Invariants of the state along a run *)

Section Preservation.

Variable I : state -> Prop.

Lemma preserves_ret {A} (a : A) : preserves I (ret a).
Proof. intros s H. exact H. Qed.

Lemma preserves_raise {A} (e : exn) : preserves I (@raise A e).
Proof. intros s H. exact H. Qed.

Lemma preserves_out_of_fuel {A} : preserves I (@out_of_fuel A).
Proof. intros s H. exact H. Qed.

Lemma preserves_get {A} (f : state -> A) : preserves I (get f).
Proof. intros s H. exact H. Qed.

Lemma preserves_ask : preserves I ask.
Proof. intros s H. exact H. Qed.

Lemma preserves_emit (e : event) : preserves I (emit e).
Proof. intros s H. exact H. Qed.

Lemma preserves_eval {A} (f : state -> outcome A) : preserves I (eval f).
Proof. intros s H. exact H. Qed.

Lemma preserves_modify (f : state -> state) :
  (forall st, I st -> I (f st)) -> preserves I (modify f).
Proof. intros Hf s H. apply Hf. exact H. Qed.

Lemma preserves_bind {A B} (m : M A) (k : A -> M B) :
  preserves I m -> (forall a, preserves I (k a)) -> preserves I (bind m k).
Proof.
  intros Hm Hk s H. unfold bind.
  pose proof (Hm s H) as H1.
  destruct (m s) as [[a | e |] s1]; simpl in *.
  - apply Hk. exact H1.
  - exact H1.
  - exact H1.
Qed.

End Preservation.

(** One step of a proof that a method keeps an invariant. *)
Ltac preserves_step :=
  match goal with
  | |- preserves _ (bind _ _) => apply preserves_bind; [| intro]
  | |- preserves _ (ret _) => apply preserves_ret
  | |- preserves _ (raise _) => apply preserves_raise
  | |- preserves _ out_of_fuel => apply preserves_out_of_fuel
  | |- preserves _ (get _) => apply preserves_get
  | |- preserves _ ask => apply preserves_ask
  | |- preserves _ (emit _) => apply preserves_emit
  | |- preserves _ (eval _) => apply preserves_eval
  | |- preserves _ (modify _) =>
      apply preserves_modify; intros ? ?; py_cbn; try assumption
  | |- preserves _ (match ?x with _ => _ end) => destruct x
  | |- preserves _ (let '(_, _) := ?x in _) => destruct x
  end.

Ltac preserves_tac := repeat preserves_step.

Lemma fire_keeps_supply (w : worker) : preserves supply_nonnegative (fire w).
Proof. unfold fire, supply_nonnegative. preserves_tac. Qed.

Lemma random_choice_keeps_supply (env : environment) (l : list worker) :
  preserves supply_nonnegative (random_choice env l).
Proof. unfold random_choice. preserves_tac. Qed.

Lemma hire_loop_keeps_supply (env : environment) (fuel : nat) (wage : Q) :
  forall applicants hired,
    preserves supply_nonnegative (hire_loop env fuel wage applicants hired).
Proof.
  induction fuel as [| fuel IH]; intros applicants hired; simpl.
  - unfold supply_nonnegative. preserves_tac.
  - apply preserves_bind; [apply preserves_get | intro wc].
    destruct ((0 <? wc)%Z && negb (is_empty applicants)); [| apply preserves_ret].
    apply preserves_bind; [apply random_choice_keeps_supply | intro w].
    apply preserves_bind; [apply preserves_ask | intro t].
    apply preserves_bind.
    { destruct (employer_answer env t w) as [[| f] |].
      - apply fire_keeps_supply.
      - apply preserves_emit.
      - apply preserves_ret. }
    intros _. apply preserves_bind; [apply preserves_emit | intros _].
    destruct (list_remove w applicants) as [applicants' |]; [| apply preserves_raise].
    unfold supply_nonnegative.
    do 4 (apply preserves_bind; [preserves_tac | intro]).
    apply IH.
Qed.

Lemma hire_keeps_supply (cfg : config) (env : environment)
    (applicants : list worker) (wage : Q) :
  preserves supply_nonnegative (hire cfg env applicants wage).
Proof.
  unfold hire. apply preserves_bind; [apply hire_loop_keeps_supply |].
  intros [applicants' hired]. unfold supply_nonnegative. preserves_tac.
Qed.

Lemma shutdown_loop_keeps_supply (fuel : nat) :
  forall i, preserves supply_nonnegative (shutdown_loop fuel i).
Proof.
  induction fuel as [| fuel IH]; intro i; simpl.
  - unfold supply_nonnegative. preserves_tac.
  - apply preserves_bind; [apply preserves_get | intro ws].
    destruct (nth_error ws i) as [w |]; [| apply preserves_ret].
    apply preserves_bind; [apply fire_keeps_supply | intros _]. apply IH.
Qed.

Lemma shutdown_keeps_supply : preserves supply_nonnegative shutdown.
Proof.
  unfold shutdown. apply preserves_bind; [apply preserves_get | intro ws].
  apply shutdown_loop_keeps_supply.
Qed.

Lemma fire_loop_keeps_supply (env : environment) (fuel : nat) :
  preserves supply_nonnegative (fire_loop env fuel).
Proof.
  induction fuel as [| fuel IH]; simpl.
  - unfold supply_nonnegative. preserves_tac.
  - apply preserves_bind; [apply preserves_get | intro wc].
    destruct (wc <? 0)%Z; [| apply preserves_ret].
    apply preserves_bind; [apply preserves_get | intro ws].
    apply preserves_bind; [apply random_choice_keeps_supply | intro w].
    apply preserves_bind; [apply fire_keeps_supply | intros _].
    unfold supply_nonnegative.
    do 2 (apply preserves_bind; [preserves_tac | intro]).
    apply IH.
Qed.

Lemma purchase_equipment_keeps_supply (env : environment) :
  preserves supply_nonnegative (purchase_equipment env).
Proof.
  unfold purchase_equipment, pay, supply_nonnegative. preserves_tac.
Qed.

Lemma purchase_materials_keeps_supply (cfg : config) (env : environment) :
  preserves supply_nonnegative (purchase_materials cfg env).
Proof.
  unfold purchase_materials, pay, supply_nonnegative. preserves_tac.
Qed.

Lemma set_production_target_keeps_supply (cfg : config) (env : environment)
    (w : world) :
  preserves supply_nonnegative (set_production_target cfg env w).
Proof.
  unfold set_production_target.
  do 4 (apply preserves_bind; [unfold supply_nonnegative; preserves_tac | intro]).
  apply preserves_bind; [apply preserves_get | intro code].
  apply preserves_bind; [apply preserves_ask | intro t].
  destruct (nth_error (actions cfg) (choose_action env t code)) as [act |];
    [| apply preserves_raise].
  do 10 (apply preserves_bind;
         [unfold supply_nonnegative; preserves_tac; apply Qle_refl | intro]).
  apply preserves_bind.
  { unfold assess_assets, supply_nonnegative. preserves_tac. }
  intros [[n_workers wage] n_equip].
  do 5 (apply preserves_bind; [unfold supply_nonnegative; preserves_tac | intro]).
  apply preserves_bind; [apply fire_loop_keeps_supply | intros _].
  unfold supply_nonnegative. preserves_tac.
Qed.

(** ** The loops have fuel enough *)

Lemma list_remove_length (x : worker) (l l' : list worker) :
  list_remove x l = Some l' -> length l = S (length l').
Proof.
  revert l'. induction l as [| y l IH]; intros l' H; simpl in H.
  - discriminate.
  - destruct (Nat.eqb y x).
    + injection H as <-. reflexivity.
    + destruct (list_remove x l) as [r |]; [| discriminate].
      injection H as <-. simpl. rewrite (IH r eq_refl). reflexivity.
Qed.

Lemma list_remove_In (x : worker) (l : list worker) :
  In x l -> exists l', list_remove x l = Some l'.
Proof.
  induction l as [| y l IH]; intro H; simpl.
  - contradiction.
  - destruct (Nat.eqb_spec y x) as [E | N].
    + eexists. reflexivity.
    + destruct H as [H | H]; [contradiction |].
      destruct (IH H) as [r Hr]. rewrite Hr. eexists. reflexivity.
Qed.

Lemma list_remove_incl (x : worker) (l l' : list worker) :
  list_remove x l = Some l' -> forall y, In y l' -> In y l.
Proof.
  revert l'. induction l as [| z l IH]; intros l' H y Hy; simpl in H.
  - discriminate.
  - destruct (Nat.eqb z x).
    + injection H as <-. right. exact Hy.
    + destruct (list_remove x l) as [r |]; [| discriminate].
      injection H as <-. destruct Hy as [Hy | Hy].
      * left. exact Hy.
      * right. apply (IH r eq_refl). exact Hy.
Qed.

Lemma list_remove_NoDup (x : worker) (l l' : list worker) :
  NoDup l -> list_remove x l = Some l' -> NoDup l' /\ ~ In x l'.
Proof.
  revert l'. induction l as [| z l IH]; intros l' ND H; simpl in H.
  - discriminate.
  - inversion ND as [| ? ? Hz NDl]; subst.
    destruct (Nat.eqb_spec z x) as [E | N].
    + injection H as <-. subst z. split; assumption.
    + destruct (list_remove x l) as [r |] eqn:R; [| discriminate].
      injection H as <-. destruct (IH r NDl eq_refl) as [NDr Hx].
      split.
      * constructor; [| exact NDr].
        intro Hin. apply Hz. apply (list_remove_incl x l r R). exact Hin.
      * intros [E | Hin]; [apply N; exact E | apply Hx; exact Hin].
Qed.

Lemma list_remove_middle (x : worker) (kept rest : list worker) :
  ~ In x kept -> list_remove x (kept ++ x :: rest) = Some (kept ++ rest).
Proof.
  induction kept as [| y kept IH]; intro H; simpl.
  - rewrite Nat.eqb_refl. reflexivity.
  - destruct (Nat.eqb_spec y x) as [E | N].
    + exfalso. apply H. left. exact E.
    + rewrite IH; [reflexivity |]. intro Hin. apply H. right. exact Hin.
Qed.

Lemma fire_run (w : worker) (s : store) :
  fire w s =
  match list_remove w (workers (self s)) with
  | None => (Raise ValueError, s)
  | Some ws' =>
      (Return tt,
       {| self := set_workers ws' (self s);
          sent := sent s ++ [WorkerQuit w];
          tick := S (tick s) |})
  end.
Proof.
  unfold fire. py_run. destruct (list_remove w (workers (self s))); reflexivity.
Qed.

Lemma random_choice_run (env : environment) (l : list worker) (s : store) :
  random_choice env l s =
  (match nth_error l (random_draw env (tick s) mod length l) with
   | Some w => Return w
   | None => Raise IndexError
   end,
   {| self := self s; sent := sent s; tick := S (tick s) |}).
Proof.
  unfold random_choice. py_run.
  destruct (nth_error l (random_draw env (tick s) mod length l)); reflexivity.
Qed.

Lemma never_out_ret {A} (a : A) : never_out (ret a).
Proof. intros s H. discriminate H. Qed.

Lemma never_out_raise {A} (e : exn) : never_out (@raise A e).
Proof. intros s H. discriminate H. Qed.

Lemma never_out_get {A} (f : state -> A) : never_out (get f).
Proof. intros s H. discriminate H. Qed.

Lemma never_out_ask : never_out ask.
Proof. intros s H. discriminate H. Qed.

Lemma never_out_emit (e : event) : never_out (emit e).
Proof. intros s H. discriminate H. Qed.

Lemma never_out_modify (f : state -> state) : never_out (modify f).
Proof. intros s H. discriminate H. Qed.

Lemma never_out_truediv (a b : Q) : truediv a b <> OutOfFuel.
Proof. unfold truediv. destruct (Qeq_bool b 0); discriminate. Qed.

Lemma never_out_eval {A} (f : state -> outcome A) :
  (forall st, f st <> OutOfFuel) -> never_out (eval f).
Proof. intros Hf s. apply Hf. Qed.

Lemma never_out_bind {A B} (m : M A) (k : A -> M B) :
  never_out m -> (forall a, never_out (k a)) -> never_out (bind m k).
Proof.
  intros Hm Hk s. unfold bind. pose proof (Hm s) as H1.
  destruct (m s) as [[a | e |] s1]; simpl in *.
  - apply Hk.
  - discriminate.
  - exfalso. apply H1. reflexivity.
Qed.

Ltac never_out_step :=
  match goal with
  | |- never_out (bind _ _) => apply never_out_bind; [| intro]
  | |- never_out (ret _) => apply never_out_ret
  | |- never_out (raise _) => apply never_out_raise
  | |- never_out (get _) => apply never_out_get
  | |- never_out ask => apply never_out_ask
  | |- never_out (emit _) => apply never_out_emit
  | |- never_out (modify _) => apply never_out_modify
  | |- never_out (eval (fun _ => truediv _ _)) =>
      apply never_out_eval; intro; apply never_out_truediv
  | |- never_out (match ?x with _ => _ end) => destruct x
  | |- never_out (let '(_, _) := ?x in _) => destruct x
  end.

Ltac never_out_tac := repeat never_out_step.

Lemma fire_never_out (w : worker) : never_out (fire w).
Proof. unfold fire. never_out_tac. Qed.

Lemma random_choice_never_out (env : environment) (l : list worker) :
  never_out (random_choice env l).
Proof. unfold random_choice. never_out_tac. Qed.

Lemma production_capacity_never_out (cfg : config) (st : state) :
  _production_capacity cfg st <> OutOfFuel.
Proof.
  unfold _production_capacity, obind, truediv.
  destruct (class_of cfg); repeat
    match goal with |- context [Qeq_bool ?a ?b] => destruct (Qeq_bool a b) end;
    discriminate.
Qed.

Lemma sum_wages_never_out (env : environment) (ws : list worker) (wages : Q) :
  never_out (sum_wages env ws wages).
Proof. intro s. rewrite sum_wages_run. discriminate. Qed.

Lemma produce_never_out (cfg : config) (env : environment) (w : world) :
  never_out (produce cfg env w).
Proof.
  unfold produce.
  apply never_out_bind;
    [apply never_out_eval; apply production_capacity_never_out | intro].
  do 3 (apply never_out_bind; [never_out_tac | intro]).
  apply never_out_bind; [apply sum_wages_never_out | intro].
  never_out_tac.
Qed.

Lemma sell_never_out (q : Q) : never_out (sell q).
Proof. intro s. rewrite sell_run. discriminate. Qed.

Lemma purchase_equipment_never_out (env : environment) :
  never_out (purchase_equipment env).
Proof. unfold purchase_equipment, pay. never_out_tac. Qed.

Lemma purchase_materials_never_out (cfg : config) (env : environment) :
  never_out (purchase_materials cfg env).
Proof.
  unfold purchase_materials, pay. never_out_tac.
Qed.

(** ** Shutdown *)

Lemma shutdown_loop_fuel (fuel : nat) :
  forall i s,
    (length (workers (self s)) - i <= fuel)%nat ->
    fst (shutdown_loop fuel i s) <> OutOfFuel.
Proof.
  induction fuel as [| fuel IH]; intros i s Hlen; cbn [shutdown_loop];
    unfold bind at 1, get; py_cbn.
  - destruct (nth_error (workers (self s)) i) eqn:E; [| discriminate].
    exfalso. assert (i < length (workers (self s)))%nat
      by (apply nth_error_Some; congruence). lia.
  - destruct (nth_error (workers (self s)) i) as [w |] eqn:E; [| discriminate].
    assert (Hi : (i < length (workers (self s)))%nat)
      by (apply nth_error_Some; congruence).
    unfold bind. rewrite fire_run.
    destruct (list_remove w (workers (self s))) as [ws' |] eqn:R; [| discriminate].
    apply IH. py_cbn. apply list_remove_length in R. lia.
Qed.

Lemma shutdown_never_out : never_out shutdown.
Proof.
  intro s. unfold shutdown, bind at 1, get. py_cbn.
  apply shutdown_loop_fuel. lia.
Qed.

Lemma shutdown_loop_run (fuel : nat) :
  forall kept rest s,
    workers (self s) = kept ++ rest ->
    NoDup (kept ++ rest) ->
    (length rest <= fuel)%nat ->
    exists s',
      shutdown_loop fuel (length kept) s = (Return tt, s')
      /\ workers (self s') = kept ++ kept_by_shutdown rest
      /\ sent s' = sent s ++ map WorkerQuit (fired_by_shutdown rest).
Proof.
  induction fuel as [| fuel IH]; intros kept rest s Hws ND Hlen.
  - destruct rest as [| x rest]; [| simpl in Hlen; lia].
    cbn [shutdown_loop]. unfold bind, get. py_cbn.
    rewrite Hws, app_nil_r.
    rewrite (proj2 (nth_error_None kept (length kept))) by lia.
    exists s. simpl. rewrite Hws, !app_nil_r. repeat split; reflexivity.
  - destruct rest as [| x rest].
    + cbn [shutdown_loop]. unfold bind, get. py_cbn.
      rewrite Hws, app_nil_r.
      rewrite (proj2 (nth_error_None kept (length kept))) by lia.
      exists s. simpl. rewrite Hws, !app_nil_r. repeat split; reflexivity.
    + assert (Hx : ~ In x kept).
      { intro Hin. apply NoDup_remove_2 in ND. apply ND.
        apply in_or_app. left. exact Hin. }
      cbn [shutdown_loop]. unfold bind at 1, get. py_cbn.
      rewrite Hws. rewrite nth_error_app2 by lia.
      rewrite Nat.sub_diag. cbn [nth_error].
      unfold bind. rewrite fire_run. rewrite Hws.
      rewrite (list_remove_middle x kept rest Hx).
      apply NoDup_remove_1 in ND.
      destruct rest as [| y rest].
      * match goal with |- context [shutdown_loop fuel _ ?s1] =>
          exists s1 end.
        split.
        { destruct fuel; cbn [shutdown_loop]; unfold bind, get; py_cbn;
            rewrite app_nil_r;
            rewrite (proj2 (nth_error_None kept (S (length kept)))) by lia;
            reflexivity. }
        split; reflexivity.
      * match goal with |- context [shutdown_loop fuel _ ?s1] =>
          destruct (IH (kept ++ [y]) rest s1) as [s' [Hrun [Hw Hs]]] end.
        { py_cbn. rewrite <- app_assoc. reflexivity. }
        { rewrite <- app_assoc. exact ND. }
        { simpl in Hlen. lia. }
        rewrite length_app, Nat.add_1_r in Hrun.
        exists s'. split; [exact Hrun |]. split.
        { rewrite Hw, <- app_assoc. reflexivity. }
        { rewrite Hs. py_cbn. rewrite <- app_assoc. reflexivity. }
Qed.

(** On a roster without duplicates [shutdown] fires the workers at the even
    places and leaves those at the odd places. *)
Lemma shutdown_run (s : store) :
  NoDup (workers (self s)) ->
  exists s',
    shutdown s = (Return tt, s')
    /\ workers (self s') = kept_by_shutdown (workers (self s))
    /\ sent s' = sent s ++ map WorkerQuit (fired_by_shutdown (workers (self s))).
Proof.
  intro ND. unfold shutdown, bind at 1, get. py_cbn.
  apply (shutdown_loop_run (length (workers (self s))) [] (workers (self s)) s);
    [reflexivity | exact ND | lia].
Qed.

(** From two workers on, a [shutdown] leaves workers on the roster. *)
Lemma shutdown_leaves_workers (s : store) :
  NoDup (workers (self s)) ->
  (2 <= length (workers (self s)))%nat ->
  exists s', shutdown s = (Return tt, s') /\ workers (self s') <> [].
Proof.
  intros ND Hlen. destruct (shutdown_run s ND) as [s' [Hrun [Hw _]]].
  exists s'. split; [exact Hrun |]. rewrite Hw.
  destruct (workers (self s)) as [| x [| y rest]]; simpl in Hlen; try lia.
  simpl. discriminate.
Qed.

(** C2 fails on the code: of two workers the first [shutdown] fires one and
    leaves the other on the roster, whom the second [shutdown] fires; of
    four workers two [shutdown]s leave one on the roster. *)
Theorem shutdown_twice_leaves_workers :
  (let st := set_workers [1%nat; 2%nat] initial_state in
   let r1 := shutdown (start st) in
   let r2 := shutdown (snd r1) in
   fst r1 = Return tt
   /\ workers (self (snd r1)) = [2%nat]
   /\ sent (snd r1) = [WorkerQuit 1%nat]
   /\ fst r2 = Return tt
   /\ workers (self (snd r2)) = []
   /\ sent (snd r2) = [WorkerQuit 1%nat; WorkerQuit 2%nat])
  /\
  (let st := set_workers [1%nat; 2%nat; 3%nat; 4%nat] initial_state in
   let r1 := shutdown (start st) in
   let r2 := shutdown (snd r1) in
   fst r1 = Return tt
   /\ workers (self (snd r1)) = [2%nat; 4%nat]
   /\ fst r2 = Return tt
   /\ workers (self (snd r2)) = [4%nat]
   /\ sent (snd r2) = [WorkerQuit 1%nat; WorkerQuit 3%nat; WorkerQuit 2%nat]).
Proof.
  vm_compute. repeat split; reflexivity.
Qed.

(** ** Hiring *)

Section Hiring.

Variable env : environment.
Variable wage : Q.

Lemma random_choice_In (l : list worker) (s : store) :
  l <> [] ->
  exists w,
    In w l /\ nth_error l (random_draw env (tick s) mod length l) = Some w.
Proof.
  intro Hl.
  assert (Hlen : length l <> 0%nat) by (destruct l; [contradiction | discriminate]).
  pose proof (Nat.mod_upper_bound (random_draw env (tick s)) (length l) Hlen) as Hlt.
  destruct (nth_error l (random_draw env (tick s) mod length l)) as [w |] eqn:E.
  - exists w. split; [apply (nth_error_In _ _ E) | reflexivity].
  - apply nth_error_None in E. lia.
Qed.

(** One turn of the loop of [hire], for the worker drawn. *)
Lemma hire_loop_unfold (fuel : nat) (applicants hired : list worker) (s : store)
    (w : worker) (applicants' : list worker) :
  (0 < worker_change (self s))%Z ->
  nth_error applicants (random_draw env (tick s) mod length applicants) = Some w ->
  list_remove w applicants = Some applicants' ->
  hire_loop env (S fuel) wage applicants hired s =
  match employer_answer env (S (tick s)) w with
  | Some ThisFirm =>
      match list_remove w (workers (self s)) with
      | None =>
          (Raise ValueError,
           {| self := self s; sent := sent s; tick := S (S (tick s)) |})
      | Some ws' =>
          hire_loop env fuel wage applicants' (hired ++ [w])
            {| self := set_worker_change (worker_change (self s) - 1)
                         (set_workers (ws' ++ [w]) (self s));
               sent := (sent s ++ [WorkerQuit w]) ++ [WorkerHire w wage];
               tick := S (S (S (S (tick s)))) |}
      end
  | Some (OtherFirm f) =>
      hire_loop env fuel wage applicants' (hired ++ [w])
        {| self := set_worker_change (worker_change (self s) - 1)
                     (set_workers (workers (self s) ++ [w]) (self s));
           sent := (sent s ++ [EmployerFire f w]) ++ [WorkerHire w wage];
           tick := S (S (S (S (tick s)))) |}
  | None =>
      hire_loop env fuel wage applicants' (hired ++ [w])
        {| self := set_worker_change (worker_change (self s) - 1)
                     (set_workers (workers (self s) ++ [w]) (self s));
           sent := sent s ++ [WorkerHire w wage];
           tick := S (S (S (tick s))) |}
  end.
Proof.
  intros Hwc Hnth Hrem.
  cbn [hire_loop]. unfold bind at 1, get. py_cbn.
  apply Z.ltb_lt in Hwc. rewrite Hwc.
  destruct applicants as [| a rest]; [discriminate Hrem |].
  cbn [is_empty negb andb].
  unfold bind at 1. rewrite random_choice_run. rewrite Hnth.
  unfold bind at 1, ask. py_cbn.
  unfold bind at 1.
  destruct (employer_answer env (S (tick s)) w) as [[| f] |].
  - unfold employer_fire. rewrite fire_run. py_cbn.
    destruct (list_remove w (workers (self s))) as [ws' |]; [| reflexivity].
    py_run. rewrite Hrem. py_cbn. reflexivity.
  - unfold employer_fire. py_run. rewrite Hrem. py_cbn. reflexivity.
  - py_run. rewrite Hrem. py_cbn. reflexivity.
Qed.

Lemma hire_loop_spec (fuel : nat) :
  forall applicants hired s,
    (length applicants <= fuel)%nat ->
    exists o s',
      hire_loop env fuel wage applicants hired s = (o, s')
      /\ match o with
         | OutOfFuel => False
         | Raise e =>
             e = ValueError
             /\ exists t w, In w applicants
                            /\ employer_answer env t w = Some ThisFirm
                            /\ ~ In w (workers (self s'))
         | Return (applicants', hired') =>
             exists new,
               hired' = hired ++ new
               /\ length new
                  = Nat.min (Z.to_nat (worker_change (self s))) (length applicants)
               /\ (length applicants' + length new = length applicants)%nat
               /\ worker_change (self s')
                  = (worker_change (self s) - Z.of_nat (length new))%Z
               /\ (forall w, In w new -> In w applicants)
               /\ (forall w, In w applicants' -> In w applicants)
               /\ (NoDup applicants -> NoDup new)
               /\ (never_this_firm env applicants ->
                   workers (self s') = workers (self s) ++ new)
         end.
Proof.
  induction fuel as [| fuel IH]; intros applicants hired s Hlen.
  - destruct applicants as [| a rest]; [| simpl in Hlen; lia].
    exists (Return ([], hired)), s. split.
    + cbn [hire_loop]. unfold bind, get. py_cbn.
      rewrite andb_false_r. reflexivity.
    + exists []. rewrite !app_nil_r. simpl.
      repeat split; try reflexivity; try tauto; try lia;
        try (rewrite Nat.min_0_r; reflexivity); try constructor.
  - destruct (Z.ltb_spec 0 (worker_change (self s))) as [Hwc | Hwc];
      [destruct applicants as [| a rest] |].
    + exists (Return ([], hired)), s. split.
      * cbn [hire_loop]. unfold bind, get. py_cbn.
        rewrite andb_false_r. reflexivity.
      * exists []. rewrite !app_nil_r. simpl.
        repeat split; try reflexivity; try tauto; try lia;
          try (rewrite Nat.min_0_r; reflexivity); try constructor.
    + destruct (random_choice_In (a :: rest) s) as [w [Hin Hnth]];
        [discriminate |].
      destruct (list_remove_In w (a :: rest) Hin) as [applicants' Hrem].
      rewrite (hire_loop_unfold fuel (a :: rest) hired s w applicants' Hwc Hnth Hrem).
      pose proof (list_remove_length _ _ _ Hrem) as Hl'.
      assert (Hfuel : (length applicants' <= fuel)%nat) by lia.
      assert (Hstep : forall s1,
                worker_change (self s1) = (worker_change (self s) - 1)%Z ->
                (employer_answer env (S (tick s)) w <> Some ThisFirm ->
                 workers (self s1) = workers (self s) ++ [w]) ->
                exists o s',
                  hire_loop env fuel wage applicants' (hired ++ [w]) s1 = (o, s')
                  /\ match o with
                     | OutOfFuel => False
                     | Raise e =>
                         e = ValueError
                         /\ exists t w0, In w0 (a :: rest)
                                         /\ employer_answer env t w0 = Some ThisFirm
                                         /\ ~ In w0 (workers (self s'))
                     | Return (applicants'', hired') =>
                         exists new,
                           hired' = hired ++ new
                           /\ length new
                              = Nat.min (Z.to_nat (worker_change (self s)))
                                        (length (a :: rest))
                           /\ (length applicants'' + length new
                               = length (a :: rest))%nat
                           /\ worker_change (self s')
                              = (worker_change (self s) - Z.of_nat (length new))%Z
                           /\ (forall w0, In w0 new -> In w0 (a :: rest))
                           /\ (forall w0, In w0 applicants'' -> In w0 (a :: rest))
                           /\ (NoDup (a :: rest) -> NoDup new)
                           /\ (never_this_firm env (a :: rest) ->
                               workers (self s') = workers (self s) ++ new)
                     end).
      { intros s1 Hwc1 Hws1.
        destruct (IH applicants' (hired ++ [w]) s1 Hfuel) as [o [s' [Hrun Hspec]]].
        exists o, s'. split; [exact Hrun |].
        destruct o as [[applicants'' hired'] | e |].
        - destruct Hspec as [new [Hh [Hn [Hlen' [Hc [Hi1 [Hi2 [Hnd Hw]]]]]]]].
          exists (w :: new). rewrite <- app_assoc in Hh.
          split; [exact Hh |].
          split.
          { cbn [length] in *. rewrite Hn, Hwc1. lia. }
          split; [cbn [length] in *; lia |].
          split; [rewrite Hc, Hwc1; cbn [length]; lia |].
          split.
          { intros w0 [E | H0]; [subst w0; exact Hin |].
            apply (list_remove_incl _ _ _ Hrem). apply Hi1. exact H0. }
          split.
          { intros w0 H0. apply (list_remove_incl _ _ _ Hrem). apply Hi2. exact H0. }
          split.
          { intro ND. destruct (list_remove_NoDup _ _ _ ND Hrem) as [ND' Hnot].
            constructor; [| apply Hnd; exact ND'].
            intro H0. apply Hnot. apply Hi1. exact H0. }
          { intro Hnever. rewrite Hw.
            - rewrite Hws1; [rewrite <- app_assoc; reflexivity |].
              apply Hnever. exact Hin.
            - intros t w0 H0. apply Hnever.
              apply (list_remove_incl _ _ _ Hrem). exact H0. }
        - destruct Hspec as [He [t [w0 [H0 Ht]]]].
          split; [exact He |]. exists t, w0. split; [| exact Ht].
          apply (list_remove_incl _ _ _ Hrem). exact H0.
        - contradiction. }
      destruct (employer_answer env (S (tick s)) w) as [[| f] |] eqn:Ea.
      * destruct (list_remove w (workers (self s))) as [ws' |] eqn:Hrm.
        { apply Hstep; [reflexivity | intro N; exfalso; apply N; reflexivity]. }
        { eexists. eexists. split; [reflexivity |].
          split; [reflexivity |]. exists (S (tick s)), w.
          split; [exact Hin |]. split; [exact Ea |]. py_cbn.
          intro Hw. destruct (list_remove_In w _ Hw) as [l' E'].
          rewrite E' in Hrm. discriminate Hrm. }
      * apply Hstep; [reflexivity | intros _; reflexivity].
      * apply Hstep; [reflexivity | intros _; reflexivity].
    + exists (Return (applicants, hired)), s. split.
      * cbn [hire_loop]. unfold bind, get. py_cbn.
        apply Z.ltb_ge in Hwc. rewrite Hwc. reflexivity.
      * exists []. rewrite !app_nil_r. simpl.
        replace (Z.to_nat (worker_change (self s))) with 0%nat by lia.
        repeat split; try reflexivity; try tauto; try lia; try constructor.
Qed.

End Hiring.

Lemma hire_loop_never_out (env : environment) (fuel : nat) (wage : Q)
    (applicants hired : list worker) :
  (length applicants <= fuel)%nat ->
  never_out (hire_loop env fuel wage applicants hired).
Proof.
  intros Hlen s.
  destruct (hire_loop_spec env wage fuel applicants hired s Hlen)
    as [o [s' [Hrun Hspec]]].
  rewrite Hrun. destruct o; [discriminate | discriminate | contradiction].
Qed.

Lemma hire_never_out (cfg : config) (env : environment)
    (applicants : list worker) (wage : Q) :
  never_out (hire cfg env applicants wage).
Proof.
  unfold hire. apply never_out_bind.
  - apply hire_loop_never_out. apply Nat.le_refl.
  - intros [applicants' hired]. never_out_tac.
Qed.

(** C5, as the code has it.  [hire] either returns or raises ValueError,
    and it raises only when some applicant names this firm as its employer
    and is not on the roster ([hire] has the employer fire the worker it
    hires); it returns whenever no applicant names this firm.  When it returns, it has taken min(vacancies, number of
    applicants) workers out of the pool, never more than the vacancies, all
    of them applicants, and it returns the vacancies left with the wage,
    raised by one increment when vacancies are left and unchanged otherwise:
    a lack of applicants is reported, never raised.  It does not look at the
    roster.  When no applicant names this firm as its employer, it appends
    the hired workers to the roster; when moreover pool and roster have no
    duplicates and no worker in common, no hired worker was on the roster
    and the roster stays without duplicates. *)
Theorem hire_reports_vacancies (cfg : config) (env : environment)
    (applicants : list worker) (wage : Q) (s : store) :
  exists o s',
    hire cfg env applicants wage s = (o, s')
    /\ match o with
       | OutOfFuel => False
       | Raise e =>
           e = ValueError
           /\ exists t w, In w applicants
                          /\ employer_answer env t w = Some ThisFirm
                          /\ ~ In w (workers (self s'))
       | Return r =>
           length (hired_workers r)
           = Nat.min (Z.to_nat (worker_change (self s))) (length applicants)
           /\ (length (applicants_left r) + length (hired_workers r)
               = length applicants)%nat
           /\ (forall w, In w (hired_workers r) -> In w applicants)
           /\ vacancies r
              = (worker_change (self s) - Z.of_nat (length (hired_workers r)))%Z
           /\ vacancies r = worker_change (self s')
           /\ next_wage r
              = (if (0 <? vacancies r)%Z then wage + wage_increment cfg else wage)
           /\ (never_this_firm env applicants ->
               workers (self s') = workers (self s) ++ hired_workers r)
           /\ (never_this_firm env applicants ->
               NoDup applicants ->
               NoDup (workers (self s)) ->
               (forall w, In w applicants -> ~ In w (workers (self s))) ->
               NoDup (workers (self s'))
               /\ forall w, In w (hired_workers r) -> ~ In w (workers (self s)))
       end
    /\ (never_this_firm env applicants -> exists r, o = Return r).
Proof.
  destruct (hire_loop_spec env wage (length applicants) applicants [] s (Nat.le_refl _))
    as [o [s1 [Hrun Hspec]]].
  unfold hire, bind at 1. rewrite Hrun.
  destruct o as [[applicants' hired] | e |].
  - destruct Hspec as [new [Hh [Hn [Hlen [Hc [Hi1 [Hi2 [Hnd Hw]]]]]]]].
    simpl in Hh. subst hired. py_run.
    eexists. eexists. split; [reflexivity |]. split.
    + cbn [hired_workers vacancies next_wage applicants_left].
      split; [exact Hn |]. split; [exact Hlen |]. split; [exact Hi1 |].
      split; [exact Hc |]. split; [reflexivity |]. split; [reflexivity |].
      split; [exact Hw |].
      intros Hnever NDa NDw Hdisj. split.
      * rewrite (Hw Hnever). apply NoDup_app.
        { exact NDw. }
        { apply Hnd. exact NDa. }
        { intros w H1 H2. apply (Hdisj w); [apply Hi1; exact H2 | exact H1]. }
      * intros w H1. apply Hdisj. apply Hi1. exact H1.
    + intros _. eexists. reflexivity.
  - exists (Raise e), s1. split; [reflexivity |]. split; [exact Hspec |].
    intro Hnever. destruct Hspec as [_ [t [w [Hin [Ht _]]]]].
    exfalso. apply (Hnever t w Hin Ht).
  - contradiction.
Qed.

Lemma hire_reports_vacancies_witness :
  exists r s',
    hire example_config example_env [5%nat; 6%nat] 10 (start short_of_workers)
      = (Return r, s')
    /\ length (hired_workers r) = 2%nat
    /\ vacancies r = 1%Z
    /\ next_wage r == 11
    /\ workers (self s') = [1%nat; 2%nat] ++ hired_workers r
    /\ NoDup (workers (self s')).
Proof.
  assert (Hnever : never_this_firm example_env [5%nat; 6%nat])
    by (intros t w _; discriminate).
  destruct (hire_reports_vacancies example_config example_env [5%nat; 6%nat] 10
              (start short_of_workers)) as [o [s' [Hrun [Hspec Hret]]]].
  destruct (Hret Hnever) as [r Hr]. subst o.
  destruct Hspec as [Hn [_ [_ [Hv [_ [Hwage [Hw Hfresh]]]]]]].
  exists r, s'. split; [exact Hrun |].
  split; [rewrite Hn; reflexivity |].
  assert (Hv' : vacancies r = 1%Z) by (rewrite Hv, Hn; reflexivity).
  split; [exact Hv' |].
  split; [rewrite Hwage, Hv'; reflexivity |].
  split; [apply Hw; exact Hnever |].
  apply Hfresh.
  - exact Hnever.
  - repeat constructor; simpl; intuition discriminate.
  - repeat constructor; simpl; intuition discriminate.
  - simpl. intros w [E | [E | []]] [F | [F | []]]; subst; discriminate.
Defined.

(** C5 fails in two places.  A firm with one vacancy whose only applicant
    is already on its roster hires that worker: when the worker names this
    firm as its employer it is fired and hired again; when it names no
    employer it is on the roster twice afterwards.  And [hire] can raise: a
    firm with roster [1; 2] and three vacancies, given the applicants 5 and
    7, hires 5 and then raises ValueError on 7, who names this firm as its
    employer and is not on the roster. *)
Lemma hire_roster_counterexample :
  let st := set_worker_change 1 (set_workers [7%nat] initial_state) in
  In 7%nat (workers st)
  /\ (let r := hire example_config own_workers_env [7%nat] 10 (start st) in
      (exists res, fst r = Return res /\ hired_workers res = [7%nat])
      /\ sent (snd r) = [WorkerQuit 7%nat; WorkerHire 7%nat 10]
      /\ workers (self (snd r)) = [7%nat])
  /\ (let r := hire example_config example_env [7%nat] 10 (start st) in
      (exists res, fst r = Return res /\ hired_workers res = [7%nat])
      /\ sent (snd r) = [WorkerHire 7%nat 10]
      /\ workers (self (snd r)) = [7%nat; 7%nat])
  /\ (let r := hire example_config claimed_env [5%nat; 7%nat] 10
                 (start short_of_workers) in
      fst r = Raise ValueError
      /\ sent (snd r) = [WorkerHire 5%nat 10]
      /\ workers (self (snd r)) = [1%nat; 2%nat; 5%nat]).
Proof.
  vm_compute. split; [left; reflexivity |].
  split; [split; [eexists; split; reflexivity | split; reflexivity] |].
  split; [split; [eexists; split; reflexivity | split; reflexivity] |].
  repeat split; reflexivity.
Qed.

(** ** The supply is never negative *)

Lemma fire_loop_fuel (env : environment) (fuel : nat) :
  forall s,
    (Z.to_nat (- worker_change (self s)) <= fuel)%nat ->
    fst (fire_loop env fuel s) <> OutOfFuel.
Proof.
  induction fuel as [| fuel IH]; intros s Hlen; cbn [fire_loop];
    unfold bind at 1, get; py_cbn;
    destruct (Z.ltb_spec (worker_change (self s)) 0) as [Hwc | Hwc];
    try discriminate; try lia.
  unfold bind at 1, get. py_cbn.
  unfold bind at 1. rewrite random_choice_run.
  destruct (nth_error (workers (self s))
              (random_draw env (tick s) mod length (workers (self s)))) as [w |];
    [| discriminate].
  unfold bind at 1. rewrite fire_run. py_cbn.
  destruct (list_remove w (workers (self s))) as [ws' |]; [| discriminate].
  py_run. apply IH. py_cbn. lia.
Qed.

Lemma never_out_get_bind {A B} (f : state -> A) (k : A -> M B) :
  (forall s, fst (k (f (self s)) s) <> OutOfFuel) -> never_out (bind (get f) k).
Proof. intros H s. unfold bind, get. apply H. Qed.

Lemma set_production_target_never_out (cfg : config) (env : environment)
    (w : world) :
  never_out (set_production_target cfg env w).
Proof.
  unfold set_production_target.
  do 6 (apply never_out_bind; [never_out_tac | intro]).
  destruct (nth_error (actions cfg) _) as [act |]; [| apply never_out_raise].
  do 10 (apply never_out_bind; [never_out_tac | intro]).
  apply never_out_bind; [unfold assess_assets; never_out_tac |].
  intros [[n_workers wage] n_equip].
  do 4 (apply never_out_bind; [never_out_tac | intro]).
  apply never_out_get_bind. intro s. unfold bind at 1.
  pose proof (fire_loop_fuel env (Z.to_nat (- worker_change (self s))) s
                (Nat.le_refl _)) as Hfuel.
  destruct (fire_loop env (Z.to_nat (- worker_change (self s))) s)
    as [[[] | e |] s1]; simpl in *.
  - py_run. discriminate.
  - discriminate.
  - exfalso. apply Hfuel. reflexivity.
Qed.

Lemma sum_wages_keeps (I : state -> Prop) (env : environment)
    (ws : list worker) (wages : Q) :
  preserves I (sum_wages env ws wages).
Proof. intros s H. rewrite sum_wages_run. exact H. Qed.

Lemma produce_keeps_supply (cfg : config) (env : environment) (w : world) :
  preserves supply_nonnegative (produce cfg env w).
Proof.
  unfold produce.
  do 2 (apply preserves_bind; [preserves_tac | intro]).
  apply preserves_bind.
  { apply preserves_modify. intros st _. unfold supply_nonnegative. py_cbn.
    apply Qlt_le_weak. apply Qmax_one_pos. }
  intros _.
  apply preserves_bind; [apply preserves_get | intro ws].
  apply preserves_bind; [apply sum_wages_keeps | intro wages].
  unfold supply_nonnegative. preserves_tac.
Qed.

Lemma sell_keeps_supply (q : Q) : preserves supply_nonnegative (sell q).
Proof.
  intros s _. rewrite sell_run. unfold supply_nonnegative. py_cbn.
  apply Qsub_min_nonneg.
Qed.

(** C6.  From a state with a non-negative supply, each operation of the firm
    leaves a state with a non-negative supply, whether it returns or raises
    ([sell] for every quantity, negative ones included). *)
Theorem supply_stays_nonnegative (cfg : config) (env : environment) (s : store) :
  0 <= supply (self s) ->
  (forall w, leaves_supply_nonnegative (set_production_target cfg env w) s)
  /\ (forall w, leaves_supply_nonnegative (produce cfg env w) s)
  /\ (forall quantity, leaves_supply_nonnegative (sell quantity) s)
  /\ (forall applicants wage,
        leaves_supply_nonnegative (hire cfg env applicants wage) s)
  /\ (forall wk, leaves_supply_nonnegative (fire wk) s)
  /\ leaves_supply_nonnegative shutdown s
  /\ leaves_supply_nonnegative (purchase_equipment env) s
  /\ leaves_supply_nonnegative (purchase_materials cfg env) s.
Proof.
  intro H. unfold leaves_supply_nonnegative.
  repeat split; intros.
  - apply set_production_target_never_out.
  - apply (set_production_target_keeps_supply cfg env w s H).
  - apply produce_never_out.
  - apply (produce_keeps_supply cfg env w s H).
  - apply sell_never_out.
  - apply (sell_keeps_supply quantity s H).
  - apply hire_never_out.
  - apply (hire_keeps_supply cfg env applicants wage s H).
  - apply fire_never_out.
  - apply (fire_keeps_supply wk s H).
  - apply shutdown_never_out.
  - apply (shutdown_keeps_supply s H).
  - apply purchase_equipment_never_out.
  - apply (purchase_equipment_keeps_supply env s H).
  - apply purchase_materials_never_out.
  - apply (purchase_materials_keeps_supply cfg env s H).
Qed.

Lemma supply_stays_nonnegative_witness :
  let s := start (set_supply 4 short_of_workers) in
  (forall w,
     leaves_supply_nonnegative
       (set_production_target example_goods_config example_env w) s)
  /\ (forall w, leaves_supply_nonnegative (produce example_goods_config example_env w) s)
  /\ (forall quantity, leaves_supply_nonnegative (sell quantity) s)
  /\ (forall applicants wage,
        leaves_supply_nonnegative
          (hire example_goods_config example_env applicants wage) s)
  /\ (forall wk, leaves_supply_nonnegative (fire wk) s)
  /\ leaves_supply_nonnegative shutdown s
  /\ leaves_supply_nonnegative (purchase_equipment example_env) s
  /\ leaves_supply_nonnegative (purchase_materials example_goods_config example_env) s.
Proof.
  apply (supply_stays_nonnegative example_goods_config example_env
           (start (set_supply 4 short_of_workers))).
  unfold Qle; simpl; lia.
Defined.

(** * Further properties of the firm *)

(** ** Capacity *)

Lemma Qfloor_min (a b : Q) : Qfloor (Qmin a b) = Z.min (Qfloor a) (Qfloor b).
Proof.
  destruct (Q.min_spec a b) as [[H E] | [H E]]; rewrite E.
  - rewrite Z.min_l; [reflexivity |]. apply Qfloor_resp_le. apply Qlt_le_weak. exact H.
  - rewrite Z.min_r; [reflexivity |]. apply Qfloor_resp_le. exact H.
Qed.

Lemma production_capacity_base (cfg : config) (st : state) :
  buys_materials (class_of cfg) = false ->
  ~ labor_cost_per_good cfg == 0 ->
  _production_capacity cfg st = Return (labor_capacity cfg st).
Proof.
  intros Hc Hl. apply Qeq_bool_false in Hl.
  unfold _production_capacity, truediv, obind.
  destruct (class_of cfg); try discriminate Hc; rewrite Hl; reflexivity.
Qed.

Lemma production_capacity_goods (cfg : config) (st : state) :
  buys_materials (class_of cfg) = true ->
  ~ labor_cost_per_good cfg == 0 ->
  ~ material_cost_per_good cfg == 0 ->
  _production_capacity cfg st
  = Return (Z.min (labor_capacity cfg st) (material_capacity cfg st)).
Proof.
  intros Hc Hl Hm. apply Qeq_bool_false in Hl. apply Qeq_bool_false in Hm.
  unfold _production_capacity, truediv, obind.
  destruct (class_of cfg); try discriminate Hc;
    rewrite Hl, Hm, Qfloor_min; reflexivity.
Qed.

Lemma production_capacity_zero_labor_cost (cfg : config) (st : state) :
  labor_cost_per_good cfg == 0 ->
  _production_capacity cfg st = Raise ZeroDivisionError.
Proof.
  intro Hl. apply Qeq_bool_iff in Hl.
  unfold _production_capacity, truediv, obind.
  destruct (class_of cfg); rewrite Hl; reflexivity.
Qed.

Lemma production_capacity_zero_material_cost (cfg : config) (st : state) :
  buys_materials (class_of cfg) = true ->
  material_cost_per_good cfg == 0 ->
  _production_capacity cfg st = Raise ZeroDivisionError.
Proof.
  intros Hc Hm. apply Qeq_bool_iff in Hm.
  unfold _production_capacity, truediv, obind.
  destruct (class_of cfg); try discriminate Hc;
    destruct (Qeq_bool (labor_cost_per_good cfg) 0); try reflexivity;
    rewrite Hm; reflexivity.
Qed.

(** X1.  With non-zero costs per good, the capacity of a goods producer is
    the smaller of the capacity its labor allows and the capacity its
    materials allow; it exceeds neither, and so never the capacity of a firm
    of the base class in the same state. *)
Theorem goods_capacity_least_of_two (cfg : config) (st : state) :
  buys_materials (class_of cfg) = true ->
  ~ labor_cost_per_good cfg == 0 ->
  ~ material_cost_per_good cfg == 0 ->
  exists capacity : Z,
    _production_capacity cfg st = Return capacity
    /\ capacity = Z.min (labor_capacity cfg st) (material_capacity cfg st)
    /\ (capacity <= labor_capacity cfg st)%Z
    /\ (capacity <= material_capacity cfg st)%Z.
Proof.
  intros Hc Hl Hm. eexists. split.
  - apply production_capacity_goods; assumption.
  - split; [reflexivity |]. split; lia.
Qed.

Lemma goods_capacity_least_of_two_witness :
  exists capacity : Z,
    _production_capacity example_goods_config (set_materials 2 wants_materials)
      = Return capacity
    /\ capacity = 2%Z.
Proof.
  destruct (goods_capacity_least_of_two example_goods_config
              (set_materials 2 wants_materials))
    as [capacity [Hrun [Hmin _]]].
  - reflexivity.
  - unfold Qeq; simpl; lia.
  - unfold Qeq; simpl; lia.
  - exists capacity. split; [exact Hrun |]. rewrite Hmin. reflexivity.
Defined.

(** ** Producing with a cost of zero *)

Lemma produce_raise (cfg : config) (env : environment) (w : world) (s : store)
    (e : exn) :
  _production_capacity cfg (self s) = Raise e ->
  produce cfg env w s = (Raise e, s).
Proof.
  intro H. unfold produce, bind at 1, eval. rewrite H. reflexivity.
Qed.

(** X2.  [produce] divides by the labor cost per good and, for a goods
    producer, by the material cost per good: when one of them is zero it
    raises ZeroDivisionError before it changes anything (no supply set, no
    wage asked for or paid); otherwise it returns. *)
Theorem produce_zero_cost (cfg : config) (env : environment) (w : world) (s : store) :
  (labor_cost_per_good cfg == 0
   \/ (buys_materials (class_of cfg) = true /\ material_cost_per_good cfg == 0) ->
   produce cfg env w s = (Raise ZeroDivisionError, s))
  /\
  (~ labor_cost_per_good cfg == 0 ->
   (buys_materials (class_of cfg) = true -> ~ material_cost_per_good cfg == 0) ->
   exists q p s', produce cfg env w s = (Return (q, p), s')).
Proof.
  split.
  - intros [Hl | [Hc Hm]]; apply produce_raise.
    + apply production_capacity_zero_labor_cost. exact Hl.
    + apply production_capacity_zero_material_cost; assumption.
  - intros Hl Hm.
    destruct (buys_materials (class_of cfg)) eqn:Hc.
    + rewrite (produce_run cfg env w s _
                 (production_capacity_goods cfg (self s) Hc Hl (Hm eq_refl))).
      do 3 eexists. reflexivity.
    + rewrite (produce_run cfg env w s _
                 (production_capacity_base cfg (self s) Hc Hl)).
      do 3 eexists. reflexivity.
Qed.

Lemma produce_zero_cost_witness :
  let cfg := {| class_of := ConsumerGoodFirm; labor_cost_per_good := 1;
                material_cost_per_good := 0; labor_per_equipment := 2;
                labor_per_worker := 1; supply_increment := 1;
                profit_increment := 1; wage_increment := 1 |} in
  produce cfg example_env example_world (start wants_materials)
    = (Raise ZeroDivisionError, start wants_materials)
  /\ exists q p s',
       produce example_goods_config example_env example_world (start wants_materials)
         = (Return (q, p), s').
Proof.
  intro cfg. split.
  - apply (produce_zero_cost cfg example_env example_world (start wants_materials)).
    right. split; reflexivity.
  - apply (produce_zero_cost example_goods_config example_env example_world
             (start wants_materials)).
    + unfold Qeq; simpl; lia.
    + intros _. unfold Qeq; simpl; lia.
Defined.

(** ** Cash and costs *)





(** ** Firing *)

Lemma list_remove_None (x : worker) (l : list worker) :
  ~ In x l -> list_remove x l = None.
Proof.
  induction l as [| y l IH]; intro H; simpl.
  - reflexivity.
  - destruct (Nat.eqb_spec y x) as [E | N].
    + exfalso. apply H. left. exact E.
    + rewrite IH; [reflexivity |]. intro Hin. apply H. right. exact Hin.
Qed.

Lemma list_remove_other (x y : worker) (l l' : list worker) :
  list_remove x l = Some l' -> y <> x -> In y l -> In y l'.
Proof.
  revert l'. induction l as [| z l IH]; intros l' H N Hy; simpl in H.
  - discriminate.
  - destruct (Nat.eqb_spec z x) as [E | Nz].
    + injection H as <-. destruct Hy as [Hy | Hy]; [| exact Hy].
      exfalso. apply N. rewrite <- Hy. exact E.
    + destruct (list_remove x l) as [r |]; [| discriminate].
      injection H as <-. destruct Hy as [Hy | Hy].
      * left. exact Hy.
      * right. apply (IH r eq_refl N Hy).
Qed.

(** X4.  [fire] of a worker that is not on the roster raises ValueError and
    changes nothing: no quit is sent.  [fire] of a worker on a roster
    without duplicates takes that worker, and no other, off the roster and
    sends it one quit. *)
Theorem fire_takes_off_roster (w : worker) (s : store) :
  (~ In w (workers (self s)) -> fire w s = (Raise ValueError, s))
  /\
  (In w (workers (self s)) ->
   NoDup (workers (self s)) ->
   exists s',
     fire w s = (Return tt, s')
     /\ ~ In w (workers (self s'))
     /\ (forall x, x <> w -> (In x (workers (self s')) <-> In x (workers (self s))))
     /\ length (workers (self s)) = S (length (workers (self s')))
     /\ NoDup (workers (self s'))
     /\ sent s' = sent s ++ [WorkerQuit w]).
Proof.
  split.
  - intro H. rewrite fire_run, (list_remove_None _ _ H). reflexivity.
  - intros Hin ND. destruct (list_remove_In w _ Hin) as [ws' Hrem].
    rewrite fire_run, Hrem. eexists. split; [reflexivity |]. py_cbn.
    destruct (list_remove_NoDup _ _ _ ND Hrem) as [ND' Hnot].
    split; [exact Hnot |]. split.
    + intros x Hx. split.
      * apply (list_remove_incl _ _ _ Hrem).
      * apply (list_remove_other _ _ _ _ Hrem Hx).
    + split; [apply (list_remove_length _ _ _ Hrem) |].
      split; [exact ND' | reflexivity].
Qed.

Lemma fire_takes_off_roster_witness :
  fire 9%nat (start short_of_workers) = (Raise ValueError, start short_of_workers)
  /\ exists s',
       fire 1%nat (start short_of_workers) = (Return tt, s')
       /\ ~ In 1%nat (workers (self s'))
       /\ sent s' = [WorkerQuit 1%nat].
Proof.
  split.
  - apply (fire_takes_off_roster 9%nat (start short_of_workers)).
    simpl. intros [E | [E | []]]; discriminate E.
  - destruct (fire_takes_off_roster 1%nat (start short_of_workers)) as [_ H].
    destruct H as [s' [Hrun [Hnot [_ [_ [_ Hsent]]]]]].
    + simpl. left. reflexivity.
    + simpl. repeat constructor; simpl; intuition discriminate.
    + exists s'. split; [exact Hrun |]. split; [exact Hnot | exact Hsent].
Defined.

(** ** Selling: what is handed over *)

(** X5.  [sell] hands over the requested quantity when the supply covers
    it, and the whole supply otherwise, leaving none; the request is not
    checked, so a negative one puts goods back on the supply.  What is
    handed over and what is left always add up to the supply before. *)
Theorem sell_hands_over (quantity : Q) (s : store) :
  exists n s',
    sell quantity s = (Return n, s')
    /\ supply (self s') + n == supply (self s)
    /\ (quantity <= supply (self s) -> n == quantity)
    /\ (supply (self s) <= quantity -> n == supply (self s) /\ supply (self s') == 0).
Proof.
  rewrite sell_run. do 2 eexists. split; [reflexivity |]. py_cbn.
  split; [ring |]. split.
  - intro H. apply Q.min_r. exact H.
  - intro H. rewrite (Q.min_l _ _ H). split; [reflexivity | ring].
Qed.

Lemma sell_hands_over_witness :
  let s := start (set_supply 5 initial_state) in
  (exists n s', sell 3 s = (Return n, s') /\ n == 3 /\ supply (self s') == 2)
  /\ (exists n s', sell 7 s = (Return n, s') /\ n == 5 /\ supply (self s') == 0)
  /\ (exists n s', sell (- (2)) s = (Return n, s') /\ n == - (2) /\ supply (self s') == 7).
Proof.
  intro s. split; [| split].
  - destruct (sell_hands_over 3 s) as [n [s' [Hrun [Hsum [Hle _]]]]].
    exists n, s'. split; [exact Hrun |].
    assert (Hn : n == 3) by (apply Hle; unfold Qle; simpl; lia).
    split; [exact Hn |]. rewrite Hn in Hsum.
    setoid_replace (supply (self s')) with (supply (self s') + 3 - 3) by ring.
    rewrite Hsum. reflexivity.
  - destruct (sell_hands_over 7 s) as [n [s' [Hrun [_ [_ Hge]]]]].
    exists n, s'. split; [exact Hrun |].
    destruct Hge as [Hn H0]; [unfold Qle; simpl; lia |].
    split; [rewrite Hn; reflexivity | exact H0].
  - destruct (sell_hands_over (- (2)) s) as [n [s' [Hrun [Hsum [Hle _]]]]].
    exists n, s'. split; [exact Hrun |].
    assert (Hn : n == - (2)) by (apply Hle; unfold Qle; simpl; lia).
    split; [exact Hn |]. rewrite Hn in Hsum.
    setoid_replace (supply (self s')) with (supply (self s') + - (2) + 2) by ring.
    rewrite Hsum. reflexivity.
Defined.

Lemma sell_all_supply (qs : list Q) :
  forall s,
    supply (self (snd (sell_all qs s)))
    == supply (self s) - Qsum (sold (supply (self s)) qs).
Proof.
  induction qs as [| q qs IH]; intro s.
  - simpl. ring.
  - cbn [sell_all]. unfold bind at 1. rewrite sell_run.
    match goal with |- context [ {| self := ?a; sent := ?b; tick := ?c |} ] =>
      pose proof (IH {| self := a; sent := b; tick := c |}) as H;
      destruct (sell_all_run qs {| self := a; sent := b; tick := c |})
        as [s' [Hrun _]] end.
    rewrite Hrun in H.
    cbn [snd self supply set_cash set_revenue set_n_sold set_supply] in H.
    unfold bind. rewrite Hrun. py_cbn.
    rewrite H. cbn [sold Qsum]. ring.
Qed.

Lemma sold_bounds (qs : list Q) :
  forall sup,
    0 <= sup ->
    Forall (fun q => 0 <= q) qs ->
    Forall2 (fun q n => 0 <= n /\ n <= q) qs (sold sup qs)
    /\ 0 <= Qsum (sold sup qs) /\ Qsum (sold sup qs) <= sup.
Proof.
  induction qs as [| q qs IH]; intros sup Hsup Hqs.
  - simpl. split; [constructor |]. split; [apply Qle_refl | exact Hsup].
  - inversion Hqs as [| ? ? Hq Hqs']; subst.
    assert (Hmin : 0 <= Qmin sup q) by (apply Q.min_glb; assumption).
    pose proof (Q.le_min_l sup q) as Hl. pose proof (Q.le_min_r sup q) as Hr.
    destruct (IH (sup - Qmin sup q)) as [HF [H0 H1]]; [lra | exact Hqs' |].
    cbn [sold Qsum]. split.
    + constructor; [split; assumption | exact HF].
    + split; lra.
Qed.

(** X6.  The sales of a step never hand over more than there is: from a
    non-negative supply and for non-negative requests, each sale is between
    0 and its request, the sales together are at most the supply, and the
    supply left is the supply before less the sales, hence not negative. *)
Theorem sell_all_within_supply (qs : list Q) (s : store) :
  0 <= supply (self s) ->
  Forall (fun q => 0 <= q) qs ->
  exists ns s',
    sell_all qs s = (Return ns, s')
    /\ Forall2 (fun q n => 0 <= n /\ n <= q) qs ns
    /\ Qsum ns <= supply (self s)
    /\ supply (self s') == supply (self s) - Qsum ns
    /\ 0 <= supply (self s').
Proof.
  intros Hsup Hqs.
  destruct (sell_all_run qs s) as [s' [Hrun _]].
  destruct (sold_bounds qs (supply (self s)) Hsup Hqs) as [HF [H0 H1]].
  pose proof (sell_all_supply qs s) as Hs. rewrite Hrun in Hs. simpl in Hs.
  exists (sold (supply (self s)) qs), s'.
  split; [exact Hrun |]. split; [exact HF |]. split; [exact H1 |].
  split; [exact Hs |]. rewrite Hs. lra.
Qed.

Lemma sell_all_within_supply_witness :
  let s := start (set_supply 5 initial_state) in
  exists ns s',
    sell_all [3; 4; 1] s = (Return ns, s')
    /\ Qsum ns <= 5
    /\ 0 <= supply (self s').
Proof.
  intro s.
  destruct (sell_all_within_supply [3; 4; 1] s) as [ns [s' [Hrun [_ [Hle [_ H0]]]]]].
  - unfold Qle; simpl; lia.
  - repeat constructor; unfold Qle; simpl; lia.
  - exists ns, s'. split; [exact Hrun |]. split; [exact Hle | exact H0].
Defined.

(** ** Producing without materials *)

(** X8.  A goods producer that holds no materials has a capacity of 0 at
    most, whatever its labor, and [produce] makes it supply exactly 1
    (costs per good non-zero). *)
Theorem goods_producer_without_materials (cfg : config) (env : environment)
    (w : world) (s : store) :
  buys_materials (class_of cfg) = true ->
  ~ labor_cost_per_good cfg == 0 ->
  ~ material_cost_per_good cfg == 0 ->
  materials (self s) == 0 ->
  exists capacity q p s',
    _production_capacity cfg (self s) = Return capacity
    /\ (capacity <= 0)%Z
    /\ produce cfg env w s = (Return (q, p), s')
    /\ q == 1
    /\ supply (self s') == 1.
Proof.
  intros Hc Hl Hm H0.
  pose proof (production_capacity_goods cfg (self s) Hc Hl Hm) as Hcap.
  assert (Hmat : material_capacity cfg (self s) = 0%Z).
  { unfold material_capacity.
    assert (E : materials (self s) / material_cost_per_good cfg == 0)
      by (rewrite H0; field; exact Hm).
    rewrite E. reflexivity. }
  assert (Hle : (Z.min (labor_capacity cfg (self s)) (material_capacity cfg (self s)) <= 0)%Z)
    by (rewrite Hmat; apply Z.le_min_r).
  rewrite (produce_run cfg env w s _ Hcap).
  do 4 eexists. split; [exact Hcap |]. split; [exact Hle |].
  split; [reflexivity |].
  assert (Hq : produced_quantity (self s)
                 (Z.min (labor_capacity cfg (self s)) (material_capacity cfg (self s)))
               == 1).
  { unfold produced_quantity. apply Q.max_l.
    eapply Qle_trans; [apply Q.le_min_r |].
    apply Qle_trans with 0; [| unfold Qle; simpl; lia].
    rewrite Zle_Qle in Hle. exact Hle. }
  split; [exact Hq |]. py_cbn. exact Hq.
Qed.

Lemma goods_producer_without_materials_witness :
  exists capacity q p s',
    _production_capacity example_goods_config wants_materials = Return capacity
    /\ (capacity <= 0)%Z
    /\ produce example_goods_config example_env example_world (start wants_materials)
       = (Return (q, p), s')
    /\ q == 1.
Proof.
  destruct (goods_producer_without_materials example_goods_config example_env
              example_world (start wants_materials))
    as [capacity [q [p [s' [Hcap [Hle [Hrun [Hq _]]]]]]]].
  - reflexivity.
  - unfold Qeq; simpl; lia.
  - unfold Qeq; simpl; lia.
  - reflexivity.
  - exists capacity, q, p, s'. repeat split; assumption.
Defined.

(** ** The classifier outside its table *)

(** X9.  The classifier returns no code exactly when [n_sold] is negative,
    or [n_sold] is positive and [leftover] negative; a code it returns is
    one of 0, 1, 2, 3, 4. *)
Theorem curren_none_iff (st : state) :
  (curren st = None <->
   n_sold st < 0 \/ (0 < n_sold st /\ leftover st < 0))
  /\ (forall k, curren st = Some k -> (0 <= k <= 4)%Z).
Proof.
  split; [split |].
  - intro H.
    destruct (Qlt_le_dec (n_sold st) 0) as [Hn | Hn]; [left; exact Hn |].
    destruct (Qlt_le_dec (leftover st) 0) as [Hl | Hl].
    + destruct (Qlt_le_dec 0 (n_sold st)) as [Hp | Hp]; [right; split; assumption |].
      exfalso. unfold curren in H.
      assert (E : Qeq_bool (n_sold st) 0 = true)
        by (apply Qeq_bool_iff; apply Qle_antisym; assumption).
      rewrite E in H. discriminate H.
    + destruct (curren_fires st Hn Hl) as [k [E _]]. congruence.
  - intros [Hn | [Hn Hl]]; unfold curren.
    + assert (E0 : Qeq_bool (n_sold st) 0 = false).
      { apply Qeq_bool_false. intro E. rewrite E in Hn. apply (Qlt_irrefl 0 Hn). }
      assert (E1 : Qltb 0 (n_sold st) = false)
        by (apply Qltb_ge; apply Qlt_le_weak; exact Hn).
      rewrite E0, E1. reflexivity.
    + assert (E0 : Qeq_bool (n_sold st) 0 = false).
      { apply Qeq_bool_false. intro E. rewrite E in Hn. apply (Qlt_irrefl 0 Hn). }
      assert (E1 : Qltb 0 (leftover st) = false)
        by (apply Qltb_ge; apply Qlt_le_weak; exact Hl).
      assert (E2 : Qeq_bool (leftover st) 0 = false).
      { apply Qeq_bool_false. intro E. rewrite E in Hl. apply (Qlt_irrefl 0 Hl). }
      rewrite E0, E1, E2, !andb_false_r. reflexivity.
  - intros k. unfold curren.
    repeat match goal with
           | |- context [if ?b then _ else _] => destruct b
           end; intro H; try discriminate H; injection H as <-; lia.
Qed.

Lemma curren_none_iff_witness :
  curren (set_n_sold (- (1)) initial_state) = None
  /\ (forall k, curren (set_n_sold 3 initial_state) = Some k -> (0 <= k <= 4)%Z).
Proof.
  split.
  - apply (curren_none_iff (set_n_sold (- (1)) initial_state)).
    left. unfold Qlt; simpl; lia.
  - apply (curren_none_iff (set_n_sold 3 initial_state)).
Defined.

(** ** What an operation writes *)

Section Frame.

(** A property of the state that each kind of write keeps. *)
Variable I : state -> Prop.

Hypothesis I_desired_supply : forall v st, I st -> I (set_desired_supply v st).
Hypothesis I_desired_equipment : forall v st, I st -> I (set_desired_equipment v st).
Hypothesis I_worker_change : forall v st, I st -> I (set_worker_change v st).
Hypothesis I_workers : forall v st, I st -> I (set_workers v st).
Hypothesis I_cash : forall v st, I st -> I (set_cash v st).
Hypothesis I_revenue : forall v st, I st -> I (set_revenue v st).
Hypothesis I_costs : forall v st, I st -> I (set_costs v st).
Hypothesis I_price : forall v st, I st -> I (set_price v st).
Hypothesis I_prev_profit : forall v st, I st -> I (set_prev_profit v st).
Hypothesis I_leftover : forall v st, I st -> I (set_leftover v st).
Hypothesis I_supply : forall v st, I st -> I (set_supply v st).
Hypothesis I_n_sold : forall v st, I st -> I (set_n_sold v st).
Hypothesis I_profit_margin : forall v st, I st -> I (set_profit_margin v st).
Hypothesis I_materials : forall v st, I st -> I (set_materials v st).
Hypothesis I_equipment : forall v st, I st -> I (set_equipment v st).

Ltac frame_step :=
  match goal with
  | |- preserves _ (modify _) => apply preserves_modify; intros ? ?; auto
  | _ => preserves_step
  end.

Ltac frame_tac := repeat frame_step.

Lemma fire_frame (w : worker) : preserves I (fire w).
Proof. unfold fire. frame_tac. Qed.

Lemma random_choice_frame (env : environment) (l : list worker) :
  preserves I (random_choice env l).
Proof. unfold random_choice. frame_tac. Qed.

Lemma hire_loop_frame (env : environment) (fuel : nat) (wage : Q) :
  forall applicants hired, preserves I (hire_loop env fuel wage applicants hired).
Proof.
  induction fuel as [| fuel IH]; intros applicants hired; cbn [hire_loop].
  - frame_tac.
  - apply preserves_bind; [apply preserves_get | intro wc].
    destruct ((0 <? wc)%Z && negb (is_empty applicants)); [| apply preserves_ret].
    apply preserves_bind; [apply random_choice_frame | intro w].
    apply preserves_bind; [apply preserves_ask | intro t].
    apply preserves_bind.
    { destruct (employer_answer env t w) as [[| f] |].
      - apply fire_frame.
      - apply preserves_emit.
      - apply preserves_ret. }
    intros _. apply preserves_bind; [apply preserves_emit | intros _].
    destruct (list_remove w applicants) as [applicants' |]; [| apply preserves_raise].
    do 4 (apply preserves_bind; [frame_tac | intro]).
    apply IH.
Qed.

Lemma hire_frame (cfg : config) (env : environment)
    (applicants : list worker) (wage : Q) :
  preserves I (hire cfg env applicants wage).
Proof.
  unfold hire. apply preserves_bind; [apply hire_loop_frame |].
  intros [applicants' hired]. frame_tac.
Qed.

Lemma shutdown_loop_frame (fuel : nat) :
  forall i, preserves I (shutdown_loop fuel i).
Proof.
  induction fuel as [| fuel IH]; intro i; cbn [shutdown_loop].
  - frame_tac.
  - apply preserves_bind; [apply preserves_get | intro ws].
    destruct (nth_error ws i) as [w |]; [| apply preserves_ret].
    apply preserves_bind; [apply fire_frame | intros _]. apply IH.
Qed.

Lemma shutdown_frame : preserves I shutdown.
Proof.
  unfold shutdown. apply preserves_bind; [apply preserves_get | intro ws].
  apply shutdown_loop_frame.
Qed.

Lemma fire_loop_frame (env : environment) (fuel : nat) :
  preserves I (fire_loop env fuel).
Proof.
  induction fuel as [| fuel IH]; cbn [fire_loop].
  - frame_tac.
  - apply preserves_bind; [apply preserves_get | intro wc].
    destruct (wc <? 0)%Z; [| apply preserves_ret].
    apply preserves_bind; [apply preserves_get | intro ws].
    apply preserves_bind; [apply random_choice_frame | intro w].
    apply preserves_bind; [apply fire_frame | intros _].
    do 2 (apply preserves_bind; [frame_tac | intro]).
    apply IH.
Qed.

Lemma produce_frame (cfg : config) (env : environment) (w : world) :
  preserves I (produce cfg env w).
Proof.
  unfold produce.
  do 4 (apply preserves_bind; [frame_tac | intro]).
  apply preserves_bind; [apply sum_wages_keeps | intro wages].
  frame_tac.
Qed.

Lemma sell_frame (quantity : Q) : preserves I (sell quantity).
Proof. unfold sell. frame_tac. Qed.

Lemma purchase_equipment_frame (env : environment) :
  preserves I (purchase_equipment env).
Proof. unfold purchase_equipment, pay. frame_tac. Qed.

Lemma purchase_materials_frame (cfg : config) (env : environment) :
  preserves I (purchase_materials cfg env).
Proof. unfold purchase_materials, pay. frame_tac. Qed.

Lemma set_production_target_frame (cfg : config) (env : environment) (w : world) :
  preserves I (set_production_target cfg env w).
Proof.
  unfold set_production_target.
  do 4 (apply preserves_bind; [frame_tac | intro]).
  apply preserves_bind; [apply preserves_get | intro code].
  apply preserves_bind; [apply preserves_ask | intro t].
  destruct (nth_error (actions cfg) (choose_action env t code)) as [act |];
    [| apply preserves_raise].
  do 10 (apply preserves_bind; [frame_tac | intro]).
  apply preserves_bind; [unfold assess_assets; frame_tac |].
  intros [[n_workers wage] n_equip].
  do 4 (apply preserves_bind; [frame_tac | intro]).
  apply preserves_bind; [apply preserves_get | intro wc].
  apply preserves_bind; [apply fire_loop_frame | intros _].
  frame_tac.
Qed.

End Frame.

(** ** What no operation does *)

Section StableUnderWrites.

(** A property that every write of a key keeps is kept by every sequence
    of calls. *)
Variable I : state -> Prop.

Hypothesis I_desired_supply : forall v st, I st -> I (set_desired_supply v st).
Hypothesis I_desired_equipment : forall v st, I st -> I (set_desired_equipment v st).
Hypothesis I_worker_change : forall v st, I st -> I (set_worker_change v st).
Hypothesis I_workers : forall v st, I st -> I (set_workers v st).
Hypothesis I_cash : forall v st, I st -> I (set_cash v st).
Hypothesis I_revenue : forall v st, I st -> I (set_revenue v st).
Hypothesis I_costs : forall v st, I st -> I (set_costs v st).
Hypothesis I_price : forall v st, I st -> I (set_price v st).
Hypothesis I_prev_profit : forall v st, I st -> I (set_prev_profit v st).
Hypothesis I_leftover : forall v st, I st -> I (set_leftover v st).
Hypothesis I_supply : forall v st, I st -> I (set_supply v st).
Hypothesis I_n_sold : forall v st, I st -> I (set_n_sold v st).
Hypothesis I_profit_margin : forall v st, I st -> I (set_profit_margin v st).
Hypothesis I_equipment : forall v st, I st -> I (set_equipment v st).
Hypothesis I_materials : forall v st, I st -> I (set_materials v st).

Lemma after_operation_stable (cfg : config) (env : environment) (o : operation)
    (s : store) :
  I (self s) -> I (self (after_operation cfg env o s)).
Proof.
  intro H. destruct o; cbn [after_operation].
  - apply (set_production_target_frame I); auto.
  - apply (hire_frame I); auto.
  - apply (fire_frame I); auto.
  - apply (shutdown_frame I); auto.
  - apply (purchase_equipment_frame I); auto.
  - apply (purchase_materials_frame I); auto.
  - apply (produce_frame I); auto.
  - apply (sell_frame I); auto.
Qed.

Lemma after_operations_stable (cfg : config) (env : environment)
    (ops : list operation) :
  forall s, I (self s) -> I (self (after_operations cfg env ops s)).
Proof.
  induction ops as [| o ops IH]; intros s H; cbn [after_operations].
  - exact H.
  - apply IH. apply after_operation_stable. exact H.
Qed.

End StableUnderWrites.

Lemma curren_low_profit (st : state) :
  profit st <= 0 -> curren st <> Some 3%Z /\ curren st <> Some 4%Z.
Proof.
  intro H.
  assert (E : Qltb 0 (profit st) = false) by (apply Qltb_ge; exact H).
  unfold curren. rewrite E.
  destruct (Qeq_bool (n_sold st) 0), (Qltb 0 (n_sold st)), (Qltb 0 (leftover st)),
    (Qeq_bool (leftover st) 0), (Qle_bool (profit st) 0);
    cbn [andb]; split; discriminate.
Qed.

(** X11.  No operation writes the profit: after any sequence of calls, with
    any answers from the outside, it is what it was.  A firm that starts
    with a profit that is not positive, as [__init__] sets it, is therefore
    never classified 3 or 4. *)
Theorem profit_never_changes (cfg : config) (env : environment)
    (ops : list operation) (s : store) :
  profit (self (after_operations cfg env ops s)) = profit (self s)
  /\ (profit (self s) <= 0 ->
      curren (self (after_operations cfg env ops s)) <> Some 3%Z
      /\ curren (self (after_operations cfg env ops s)) <> Some 4%Z).
Proof.
  assert (E : profit (self (after_operations cfg env ops s)) = profit (self s)).
  { apply (after_operations_stable (fun st => profit st = profit (self s)));
      try (intros v st H; py_cbn; exact H).
    reflexivity. }
  split; [exact E |].
  intro H. apply curren_low_profit. rewrite E. exact H.
Qed.

Lemma profit_never_changes_witness :
  let ops := [SetProductionTarget example_world; Hire [5%nat; 6%nat] 10;
              PurchaseEquipment; Produce example_world; Sell 4] in
  let s := after_operations example_config example_env ops (start initial_state) in
  profit (self s) = 0 /\ curren (self s) <> Some 3%Z /\ curren (self s) <> Some 4%Z.
Proof.
  intros ops s.
  destruct (profit_never_changes example_config example_env ops (start initial_state))
    as [E H].
  split; [exact E |]. apply H. unfold Qle; simpl; lia.
Defined.

(** ** The keys an operation writes *)

Ltac same_but :=
  intros; cbv beta in *;
  repeat match goal with
         | H : exists _, _ |- _ => destruct H
         end;
  subst;
  repeat match goal with
         | |- exists _, _ => eexists
         end;
  cbv [desired_supply desired_equipment worker_change workers cash revenue
       costs price profit prev_profit leftover supply n_sold profit_margin
       equipment materials
       set_desired_supply set_desired_equipment set_worker_change set_workers
       set_cash set_revenue set_costs set_price set_prev_profit set_leftover
       set_supply set_n_sold set_profit_margin set_equipment set_materials];
  reflexivity.

(** X13.  Each operation writes its own keys and no other, whether it
    returns or raises: [fire] and [shutdown] the roster; [hire] the roster
    and the vacancies; [sell] supply, sold count, revenue and cash;
    [produce] supply, costs, cash and price; a purchase of equipment the
    equipment, cash and costs; a purchase of materials the desired supply,
    the materials, cash and costs.  So hiring and firing move no money,
    producing uses up neither materials nor equipment, and no purchase
    touches the roster. *)
Theorem operations_write_their_keys (cfg : config) (env : environment) (s : store) :
  (forall w, exists ws, self (snd (fire w s)) = set_workers ws (self s))
  /\ (exists ws, self (snd (shutdown s)) = set_workers ws (self s))
  /\ (forall applicants wage,
        exists ws wc,
          self (snd (hire cfg env applicants wage s))
          = set_worker_change wc (set_workers ws (self s)))
  /\ (forall quantity,
        exists k r n q,
          self (snd (sell quantity s))
          = set_cash k (set_revenue r (set_n_sold n (set_supply q (self s)))))
  /\ (forall w,
        exists p k c q,
          self (snd (produce cfg env w s))
          = set_price p (set_cash k (set_costs c (set_supply q (self s)))))
  /\ (exists c k e,
        self (snd (purchase_equipment env s))
        = set_costs c (set_cash k (set_equipment e (self s))))
  /\ (exists c k m d,
        self (snd (purchase_materials cfg env s))
        = set_costs c (set_cash k (set_materials m (set_desired_supply d (self s))))).
Proof.
  repeat split.
  - intro w.
    apply (fire_frame (fun st => exists ws, st = set_workers ws (self s)));
      [same_but |].
    destruct (self s); eexists; reflexivity.
  - apply (shutdown_frame (fun st => exists ws, st = set_workers ws (self s)));
      [same_but |].
    destruct (self s); eexists; reflexivity.
  - intros applicants wage.
    apply (hire_frame
             (fun st => exists ws wc, st = set_worker_change wc (set_workers ws (self s))));
      [same_but | same_but |].
    destruct (self s); do 2 eexists; reflexivity.
  - intro quantity.
    apply (sell_frame
             (fun st => exists k r n q,
                st = set_cash k (set_revenue r (set_n_sold n (set_supply q (self s))))));
      [same_but | same_but | same_but | same_but |].
    destruct (self s); do 4 eexists; reflexivity.
  - intro w.
    apply (produce_frame
             (fun st => exists p k c q,
                st = set_price p (set_cash k (set_costs c (set_supply q (self s))))));
      [same_but | same_but | same_but | same_but |].
    destruct (self s); do 4 eexists; reflexivity.
  - apply (purchase_equipment_frame
             (fun st => exists c k e,
                st = set_costs c (set_cash k (set_equipment e (self s)))));
      [same_but | same_but | same_but |].
    destruct (self s); do 3 eexists; reflexivity.
  - apply (purchase_materials_frame
             (fun st => exists c k m d,
                st = set_costs c (set_cash k (set_materials m (set_desired_supply d (self s))))));
      [same_but | same_but | same_but | same_but |].
    destruct (self s); do 4 eexists; reflexivity.
Qed.

(** ** The daily decision *)

(** The loop of [set_production_target] fires as many workers as the
    vacancies are negative, when the roster has that many. *)
Lemma fire_loop_spec (env : environment) (fuel : nat) :
  forall s,
    (Z.to_nat (- worker_change (self s)) <= fuel)%nat ->
    (Z.to_nat (- worker_change (self s)) <= length (workers (self s)))%nat ->
    exists s' ws,
      fire_loop env fuel s = (Return tt, s')
      /\ self s' = set_worker_change (Z.max (worker_change (self s)) 0)
                     (set_workers ws (self s))
      /\ length ws
         = (length (workers (self s)) - Z.to_nat (- worker_change (self s)))%nat
      /\ (forall x, In x ws -> In x (workers (self s)))
      /\ exists fired,
           sent s' = sent s ++ map WorkerQuit fired
           /\ length fired = Z.to_nat (- worker_change (self s)).
Proof.
  induction fuel as [| fuel IH]; intros s Hfuel Hlen.
  - assert (Hwc : (0 <= worker_change (self s))%Z) by lia.
    cbn [fire_loop]. unfold bind, get. py_cbn.
    apply Z.ltb_ge in Hwc. rewrite Hwc. apply Z.ltb_ge in Hwc.
    exists s, (workers (self s)). split; [reflexivity |].
    split; [rewrite Z.max_l by lia; destruct s as [[] ? ?]; reflexivity |].
    split; [lia |]. split; [tauto |].
    exists []. simpl. rewrite app_nil_r. split; [reflexivity | lia].
  - destruct (Z.ltb_spec (worker_change (self s)) 0) as [Hwc | Hwc].
    + cbn [fire_loop]. unfold bind at 1, get. py_cbn.
      apply Z.ltb_lt in Hwc. rewrite Hwc. apply Z.ltb_lt in Hwc.
      unfold bind at 1, get. py_cbn.
      unfold bind at 1. rewrite random_choice_run.
      assert (Hne : workers (self s) <> []).
      { intro E. rewrite E in Hlen. simpl in Hlen. lia. }
      destruct (random_choice_In env (workers (self s)) s Hne) as [w [Hin Hnth]].
      rewrite Hnth. unfold bind at 1. rewrite fire_run. py_cbn.
      destruct (list_remove_In w _ Hin) as [ws' Hrem]. rewrite Hrem.
      pose proof (list_remove_length _ _ _ Hrem) as Hl'.
      unfold bind at 1, get. py_cbn. unfold bind at 1, modify. py_cbn.
      match goal with |- context [fire_loop env fuel ?s1] =>
        destruct (IH s1) as [s' [ws [Hrun [Hself [Hws [Hincl [fired [Hsent Hfired]]]]]]]]
      end.
      { py_cbn. lia. }
      { py_cbn. lia. }
      py_cbn in Hself. py_cbn in Hws. py_cbn in Hincl. py_cbn in Hsent. py_cbn in Hfired.
      exists s', ws. split; [exact Hrun |].
      split.
      { rewrite Hself. replace (Z.max (worker_change (self s) + 1) 0)
          with (Z.max (worker_change (self s)) 0) by lia. reflexivity. }
      split; [rewrite Hws; lia |].
      split.
      { intros x Hx. apply (list_remove_incl _ _ _ Hrem). apply Hincl. exact Hx. }
      exists (w :: fired). split.
      { rewrite Hsent, <- app_assoc. reflexivity. }
      { simpl. rewrite Hfired. lia. }
    + cbn [fire_loop]. unfold bind, get. py_cbn.
      apply Z.ltb_ge in Hwc. rewrite Hwc. apply Z.ltb_ge in Hwc.
      exists s, (workers (self s)). split; [reflexivity |].
      split; [rewrite Z.max_l by lia; destruct s as [[] ? ?]; reflexivity |].
      split; [lia |]. split; [tauto |].
      exists []. simpl. rewrite app_nil_r. split; [reflexivity | lia].
Qed.

Lemma wrap_int64_id (z : Z) : in_int64 z = true -> wrap_int64 z = z.
Proof.
  intro H. apply in_int64_bounds in H. unfold wrap_int64.
  unfold int64_min, int64_max in *. rewrite Z.mod_small; lia.
Qed.

Lemma is_whole_floor (x : Q) : is_whole x = true -> inject_Z (Qfloor x) == x.
Proof. unfold is_whole. intro H. apply Qeq_bool_iff. exact H. Qed.

(** As long as the difference between the plan and the equipment held has
    64 bits, nothing wraps around: the target is the larger of the two. *)
Lemma equipment_target_exact (e : Q) (n : Z) :
  in_int64 n = true ->
  inject_Z int64_min <= inject_Z n - e ->
  inject_Z n - e <= inject_Z int64_max ->
  equipment_target e n == Qmax e (inject_Z n).
Proof.
  intros Hn Hlo Hhi. unfold equipment_target.
  destruct (is_whole e && in_int64 (Qfloor e)) eqn:W.
  - apply andb_true_iff in W. destruct W as [W _].
    pose proof (is_whole_floor e W) as E.
    assert (Hd : in_int64 (n - Qfloor e) = true).
    { apply in_int64_bounds. rewrite <- E in Hlo, Hhi.
      unfold Qminus in Hlo, Hhi.
      rewrite <- inject_Z_opp, <- inject_Z_plus in Hlo, Hhi.
      rewrite <- Zle_Qle in Hlo, Hhi. lia. }
    cbv zeta. rewrite (wrap_int64_id _ Hd).
    destruct (Z.ltb_spec 0 (n - Qfloor e)) as [Hpos | Hneg].
    + replace (Qfloor e + (n - Qfloor e))%Z with n by lia.
      rewrite (wrap_int64_id _ Hn). symmetry. apply Q.max_r.
      rewrite <- E. rewrite <- Zle_Qle. lia.
    + rewrite Qplus_0_r. symmetry. apply Q.max_l.
      rewrite <- E. rewrite <- Zle_Qle. lia.
  - destruct (Q.max_spec 0 (inject_Z n - e)) as [[H1 E1] | [H1 E1]]; rewrite E1.
    + setoid_replace (e + (inject_Z n - e)) with (inject_Z n) by ring.
      symmetry. apply Q.max_r. lra.
    + rewrite Qplus_0_r. symmetry. apply Q.max_l. lra.
Qed.

(** Beyond that the 64-bit integers wrap around: with one piece of
    equipment and a plan of -2^63, which is what an answer out of range is
    converted to, the desired equipment becomes -2^63. *)
Remark equipment_target_wraps :
  equipment_target 1 int64_min = inject_Z int64_min
  /\ equipment_target 0 int64_min == 0.
Proof. split; vm_compute; reflexivity. Qed.

(** What [set_production_target] does when the learner picks one of the six
    actions. *)
Lemma set_production_target_run (cfg : config) (env : environment) (w : world)
    (s : store) (act : action) :
  chosen_action cfg env s = Some act ->
  exists (vac wage : Z) (s' : store),
    set_production_target cfg env w s = (Return (vac, wage), s')
    /\ prev_profit (self s') = profit (self s)
    /\ leftover (self s') = supply (self s)
    /\ desired_supply (self s')
       = Qmax 1 (desired_supply (self s) + dict_get (act_supply act) 0)
    /\ profit_margin (self s')
       = profit_margin (self s) + dict_get (act_profit_margin act) 0
    /\ (supply (self s') = 0 /\ materials (self s') = 0 /\ n_sold (self s') = 0
        /\ revenue (self s') = 0 /\ costs (self s') = 0)
    /\ (let x := results_x cfg env
                   (desired_supply (self s') * labor_cost_per_good cfg)
                   (mean_wage w) (mean_equip_price w) (S (tick s)) in
        let target := Z.max (astype_int (Qceiling (fst (fst x)))) 0 in
        wage = astype_int (Qceiling (snd (fst x)))
        /\ (Z.of_nat (length (workers (self s'))) + vac = target)%Z
        /\ desired_equipment (self s')
           = equipment_target (equipment (self s))
               (astype_int (Qceiling (snd x))))
    /\ vac = worker_change (self s')
    /\ (0 <= vac)%Z
    /\ (length (workers (self s')) <= length (workers (self s)))%nat
    /\ (forall x, In x (workers (self s')) -> In x (workers (self s)))
    /\ equipment (self s') = equipment (self s)
    /\ cash (self s') = cash (self s).
Proof.
  unfold chosen_action, assessed. intro Hact.
  unfold set_production_target, assess_assets. py_run.
  rewrite Hact. py_run. rewrite ceil_vec_components.
  match goal with |- context [fire_loop env ?f ?s1] =>
    destruct (fire_loop_spec env f s1)
      as [s' [ws [Hrun [Hself [Hws [Hincl _]]]]]]
  end.
  { py_cbn. apply Nat.le_refl. }
  { py_cbn. lia. }
  rewrite Hrun. py_cbn in Hself. py_cbn in Hws. py_cbn in Hincl.
  do 3 eexists. split; [reflexivity |].
  rewrite Hself. py_cbn.
  repeat split; try reflexivity; try lia; try exact Hincl.
Qed.

(** X14.  When the learner picks one of the six actions,
    [set_production_target] returns.  It records the profit and the supply
    of the day before, applies the action (desired supply at least 1),
    resets supply, materials, sold count, revenue and costs to 0, and plans
    on the minimizer's answer for the new desired supply: the target
    headcount is its worker component rounded up and converted to a 64-bit
    integer, 0 at least, and the wage its wage component, rounded up and
    converted.  It fires down to the target and hires nobody: the roster it
    leaves and the vacancies it returns, which are not negative, add up to
    the target.  So an answer whose worker component is out of the 64-bit
    range, converted to -2^63, makes the target 0 and has every worker
    fired.  The desired equipment becomes the larger of the equipment held
    and the equipment component, rounded up and converted, as long as their
    difference has 64 bits; equipment and cash are as before. *)
Theorem set_production_target_plan (cfg : config) (env : environment) (w : world)
    (s : store) (act : action) :
  chosen_action cfg env s = Some act ->
  exists (vac wage : Z) (s' : store),
    set_production_target cfg env w s = (Return (vac, wage), s')
    /\ prev_profit (self s') = profit (self s)
    /\ leftover (self s') = supply (self s)
    /\ desired_supply (self s')
       = Qmax 1 (desired_supply (self s) + dict_get (act_supply act) 0)
    /\ profit_margin (self s')
       = profit_margin (self s) + dict_get (act_profit_margin act) 0
    /\ (supply (self s') = 0 /\ materials (self s') = 0 /\ n_sold (self s') = 0
        /\ revenue (self s') = 0 /\ costs (self s') = 0)
    /\ (let x := results_x cfg env
                   (desired_supply (self s') * labor_cost_per_good cfg)
                   (mean_wage w) (mean_equip_price w) (S (tick s)) in
        let target := Z.max (astype_int (Qceiling (fst (fst x)))) 0 in
        let n_equip := astype_int (Qceiling (snd x)) in
        wage = astype_int (Qceiling (snd (fst x)))
        /\ (Z.of_nat (length (workers (self s'))) + vac = target)%Z
        /\ (in_int64 (Qceiling (fst (fst x))) = false ->
            workers (self s') = [] /\ vac = 0%Z)
        /\ (inject_Z int64_min <= inject_Z n_equip - equipment (self s) ->
            inject_Z n_equip - equipment (self s) <= inject_Z int64_max ->
            desired_equipment (self s')
            == Qmax (equipment (self s)) (inject_Z n_equip)))
    /\ vac = worker_change (self s')
    /\ (0 <= vac)%Z
    /\ (length (workers (self s')) <= length (workers (self s)))%nat
    /\ (forall x, In x (workers (self s')) -> In x (workers (self s)))
    /\ equipment (self s') = equipment (self s)
    /\ cash (self s') = cash (self s).
Proof.
  intro Hact.
  destruct (set_production_target_run cfg env w s act Hact)
    as [vac [wage [s' [Hrun [H1 [H2 [H3 [H4 [H5 [Hplan [H7 [H8 [H9 [H10 [H11 H12]]]]]]]]]]]]]]].
  exists vac, wage, s'.
  split; [exact Hrun |]. split; [exact H1 |]. split; [exact H2 |].
  split; [exact H3 |]. split; [exact H4 |]. split; [exact H5 |].
  split; [| repeat split; assumption].
  cbv zeta in Hplan |- *. destruct Hplan as [Hw [Ht He]].
  split; [exact Hw |]. split; [exact Ht |]. split.
  - intro Hout. rewrite (astype_int_out _ Hout) in Ht.
    change (Z.max int64_min 0) with 0%Z in Ht.
    assert (Hl : length (workers (self s')) = 0%nat) by lia.
    split; [| lia].
    destruct (workers (self s')); [reflexivity | discriminate Hl].
  - intros Hlo Hhi. rewrite He.
    apply equipment_target_exact; [apply astype_int_range | exact Hlo | exact Hhi].
Qed.

Lemma set_production_target_plan_witness :
  exists (vac wage : Z) (s' : store),
    set_production_target example_config example_env example_world
      (start short_of_workers) = (Return (vac, wage), s')
    /\ vac = 1%Z /\ wage = 10%Z
    /\ length (workers (self s')) = 2%nat
    /\ desired_supply (self s') == 2
    /\ desired_equipment (self s') == 1.
Proof.
  destruct (set_production_target_plan example_config example_env example_world
              (start short_of_workers)
              {| act_supply := Some 1; act_profit_margin := None |} eq_refl)
    as [vac [wage [s' [Hrun [_ [_ [_ [_ [_ [[_ [_ [_ He]]] _]]]]]]]]]].
  exists vac, wage, s'. split; [exact Hrun |].
  assert (Hd : desired_equipment (self s') == 1).
  { rewrite He.
    - vm_compute in Hrun. injection Hrun as _ _ Hs. subst s'.
      vm_compute. reflexivity.
    - vm_compute in Hrun. injection Hrun as _ _ Hs. subst s'.
      vm_compute. discriminate.
    - vm_compute in Hrun. injection Hrun as _ _ Hs. subst s'.
      vm_compute. discriminate. }
  vm_compute in Hrun. injection Hrun as Hv Hw Hs. subst vac wage.
  split; [reflexivity |]. split; [reflexivity |].
  rewrite <- Hs in *. split; [reflexivity |]. split; [reflexivity |]. exact Hd.
Defined.

(** X15.  When the learner's answer is not the index of one of the six
    actions, [set_production_target] raises IndexError; it has then
    overwritten the previous profit and the leftover with today's profit and
    supply, and nothing else. *)
Theorem set_production_target_bad_action (cfg : config) (env : environment)
    (w : world) (s : store) :
  chosen_action cfg env s = None ->
  set_production_target cfg env w s
  = (Raise IndexError,
     {| self := set_leftover (supply (self s))
                  (set_prev_profit (profit (self s)) (self s));
        sent := sent s;
        tick := S (tick s) |}).
Proof.
  unfold chosen_action, assessed. intro Hact.
  unfold set_production_target. py_run. rewrite Hact. reflexivity.
Qed.

Lemma set_production_target_bad_action_witness :
  let env := {| employer_answer := fun _ _ => None;
                wage_answer := fun _ _ => 10;
                supplier_answer := fun _ => (10, 8);
                random_draw := fun _ => 0%nat;
                choose_action := fun _ _ => 6%nat;
                minimize := fun _ _ _ _ _ => (1, 0, 0) |} in
  let s := start (set_supply 4 initial_state) in
  fst (set_production_target example_config env example_world s) = Raise IndexError
  /\ leftover (self (snd (set_production_target example_config env example_world s))) = 4
  /\ supply (self (snd (set_production_target example_config env example_world s))) = 4.
Proof.
  intros env s.
  rewrite (set_production_target_bad_action example_config env example_world s eq_refl).
  repeat split; reflexivity.
Defined.

(** What [hire] does when no applicant names this firm as its employer. *)
Lemma hire_run (cfg : config) (env : environment) (applicants : list worker)
    (wage : Q) (s : store) :
  never_this_firm env applicants ->
  exists r s',
    hire cfg env applicants wage s = (Return r, s')
    /\ length (hired_workers r)
       = Nat.min (Z.to_nat (worker_change (self s))) (length applicants)
    /\ (forall x, In x (hired_workers r) -> In x applicants)
    /\ (NoDup applicants -> NoDup (hired_workers r))
    /\ vacancies r = (worker_change (self s) - Z.of_nat (length (hired_workers r)))%Z
    /\ next_wage r
       = (if (0 <? vacancies r)%Z then wage + wage_increment cfg else wage)
    /\ self s' = set_worker_change (vacancies r)
                   (set_workers (workers (self s) ++ hired_workers r) (self s)).
Proof.
  intro Hnever.
  destruct (hire_loop_spec env wage (length applicants) applicants [] s (Nat.le_refl _))
    as [o [s1 [Hrun Hspec]]].
  assert (Hframe : exists ws wc,
            self s1 = set_worker_change wc (set_workers ws (self s))).
  { assert (I0 : exists ws wc,
              self s = set_worker_change wc (set_workers ws (self s)))
      by (destruct (self s); do 2 eexists; reflexivity).
    pose proof (hire_loop_frame
                  (fun st => exists ws wc,
                     st = set_worker_change wc (set_workers ws (self s)))
                  ltac:(clear I0; same_but) ltac:(clear I0; same_but)
                  env (length applicants) wage applicants [] s I0) as F.
    rewrite Hrun in F. exact F. }
  unfold hire, bind at 1. rewrite Hrun.
  destruct o as [[applicants' hired] | e |].
  - destruct Hspec as [new [Hh [Hn [Hlen [Hc [Hi1 [Hi2 [Hnd Hw]]]]]]]].
    simpl in Hh. subst hired. py_run.
    do 2 eexists. split; [reflexivity |].
    cbn [hired_workers vacancies next_wage applicants_left].
    split; [exact Hn |]. split; [exact Hi1 |]. split; [exact Hnd |].
    split; [exact Hc |]. split; [reflexivity |].
    destruct Hframe as [ws [wc Hf]]. specialize (Hw Hnever).
    rewrite Hf in Hw |- *. py_cbn in Hw. py_cbn. rewrite Hw. reflexivity.
  - destruct Hspec as [_ [t [x [Hin [Ht _]]]]]. exfalso. apply (Hnever t x Hin Ht).
  - contradiction.
Qed.

(** X16.  The plan is carried out by [set_production_target] followed by
    [hire]: when the learner picks one of the six actions, no applicant
    names this firm as its employer and the applicants are at least as many
    as the vacancies, then after [hire] the headcount is the target of the
    plan (the worker component of the minimizer's answer, rounded up and
    converted to a 64-bit integer, 0 at least), no vacancy is left and the
    wage offered is not raised. *)
Theorem plan_then_hire (cfg : config) (env : environment) (w : world)
    (s : store) (act : action) (applicants : list worker) (wage : Q) :
  chosen_action cfg env s = Some act ->
  never_this_firm env applicants ->
  let s1 := snd (set_production_target cfg env w s) in
  (worker_change (self s1) <= Z.of_nat (length applicants))%Z ->
  exists (vac wg : Z) (r : hire_result) (s2 : store),
    set_production_target cfg env w s = (Return (vac, wg), s1)
    /\ hire cfg env applicants wage s1 = (Return r, s2)
    /\ length (hired_workers r) = Z.to_nat vac
    /\ vacancies r = 0%Z
    /\ next_wage r = wage
    /\ Z.of_nat (length (workers (self s2)))
       = Z.max (astype_int (Qceiling (fst (fst (results_x cfg env
                   (desired_supply (self s2) * labor_cost_per_good cfg)
                   (mean_wage w) (mean_equip_price w) (S (tick s))))))) 0.
Proof.
  intros Hact Hnever s1 Hlen.
  destruct (set_production_target_run cfg env w s act Hact)
    as [vac [wg [s1' [Hrun1 [_ [_ [_ [_ [_ [Hplan [Hvac [H0 _]]]]]]]]]]]].
  assert (E1 : s1 = s1') by (unfold s1; rewrite Hrun1; reflexivity).
  rewrite <- E1 in *. clear E1 s1'.
  destruct (hire_run cfg env applicants wage s1 Hnever)
    as [r [s2 [Hrun2 [Hn [_ [_ [Hv [Hw Hself]]]]]]]].
  cbv zeta in Hplan. destruct Hplan as [_ [Ht _]].
  assert (Hh : length (hired_workers r) = Z.to_nat vac)
    by (rewrite Hn, <- Hvac; lia).
  assert (Hv0 : vacancies r = 0%Z) by (rewrite Hv, Hh, <- Hvac; lia).
  exists vac, wg, r, s2.
  split; [exact Hrun1 |]. split; [exact Hrun2 |]. split; [exact Hh |].
  split; [exact Hv0 |]. split; [rewrite Hw, Hv0; reflexivity |].
  rewrite Hself. py_cbn. rewrite length_app, Hh, <- Ht. lia.
Qed.

Lemma plan_then_hire_witness :
  let s1 := snd (set_production_target example_config example_env example_world
                   (start short_of_workers)) in
  exists (r : hire_result) (s2 : store),
    hire example_config example_env [5%nat; 6%nat] 10 s1 = (Return r, s2)
    /\ vacancies r = 0%Z
    /\ next_wage r = 10
    /\ length (workers (self s2)) = 3%nat.
Proof.
  intro s1.
  destruct (plan_then_hire example_config example_env example_world
              (start short_of_workers)
              {| act_supply := Some 1; act_profit_margin := None |}
              [5%nat; 6%nat] 10 eq_refl)
    as [vac [wg [r [s2 [_ [Hrun [_ [Hv [Hw Hlen]]]]]]]]].
  - intros t x _. discriminate.
  - vm_compute. discriminate.
  - exists r, s2. split; [exact Hrun |]. split; [exact Hv |]. split; [exact Hw |].
    apply Nat2Z.inj. rewrite Hlen.
    vm_compute in Hrun. injection Hrun as Hr Hs. subst s2. reflexivity.
Defined.

(** X17.  Firing undoes hiring: when a firm with a vacancy hires its only
    applicant, who is not on the roster and does not name this firm as its
    employer, and then fires that worker, the roster is what it was before. *)
Theorem hire_then_fire (cfg : config) (env : environment) (w : worker)
    (wage : Q) (s : store) :
  (0 < worker_change (self s))%Z ->
  ~ In w (workers (self s)) ->
  never_this_firm env [w] ->
  exists (r : hire_result) (s1 s2 : store),
    hire cfg env [w] wage s = (Return r, s1)
    /\ hired_workers r = [w]
    /\ workers (self s1) = workers (self s) ++ [w]
    /\ fire w s1 = (Return tt, s2)
    /\ workers (self s2) = workers (self s).
Proof.
  intros Hwc Hnot Hnever.
  destruct (hire_run cfg env [w] wage s Hnever)
    as [r [s1 [Hrun [Hn [Hin [_ [_ [_ Hself]]]]]]]].
  assert (Hh : hired_workers r = [w]).
  { destruct (hired_workers r) as [| x [| y l]] eqn:E; simpl in Hn; try lia.
    destruct (Hin x (or_introl eq_refl)) as [Hx | []]. subst x. reflexivity. }
  assert (Hws : workers (self s1) = workers (self s) ++ [w])
    by (rewrite Hself, Hh; reflexivity).
  exists r, s1. eexists.
  split; [exact Hrun |]. split; [exact Hh |]. split; [exact Hws |].
  rewrite fire_run, Hws, (list_remove_middle w (workers (self s)) [] Hnot).
  split; [reflexivity |]. py_cbn. apply app_nil_r.
Qed.

Lemma hire_then_fire_witness :
  exists (r : hire_result) (s1 s2 : store),
    hire example_config example_env [5%nat] 10 (start short_of_workers) = (Return r, s1)
    /\ workers (self s1) = [1%nat; 2%nat; 5%nat]
    /\ fire 5%nat s1 = (Return tt, s2)
    /\ workers (self s2) = [1%nat; 2%nat].
Proof.
  destruct (hire_then_fire example_config example_env 5%nat 10 (start short_of_workers))
    as [r [s1 [s2 [Hrun [_ [Hws [Hfire Hback]]]]]]].
  - reflexivity.
  - simpl. intros [E | [E | []]]; discriminate E.
  - intros t x _. discriminate.
  - exists r, s1, s2. repeat split; assumption.
Defined.

(** ** The roster and the capacity *)

Lemma Qdiv_le_compat_pos (a b c : Q) : 0 < c -> a <= b -> a / c <= b / c.
Proof.
  intros Hc H. unfold Qdiv. apply Qmult_le_compat_r; [exact H |].
  apply Qlt_le_weak. apply Qinv_lt_0_compat. exact Hc.
Qed.

Lemma capacity_grows_with_roster (cfg : config) (st1 st2 : state) :
  0 <= labor_per_worker cfg ->
  0 <= labor_per_equipment cfg ->
  0 < labor_cost_per_good cfg ->
  (buys_materials (class_of cfg) = true -> ~ material_cost_per_good cfg == 0) ->
  (length (workers st1) <= length (workers st2))%nat ->
  equipment st1 = equipment st2 ->
  materials st1 = materials st2 ->
  exists c1 c2,
    _production_capacity cfg st1 = Return c1
    /\ _production_capacity cfg st2 = Return c2
    /\ (c1 <= c2)%Z.
Proof.
  intros Hw He Hl Hm Hlen Heq Hmat.
  assert (Hl0 : ~ labor_cost_per_good cfg == 0)
    by (intro E; rewrite E in Hl; apply (Qlt_irrefl 0 Hl)).
  assert (Hlab : (labor_capacity cfg st1 <= labor_capacity cfg st2)%Z).
  { unfold labor_capacity. apply Qfloor_resp_le. apply Qdiv_le_compat_pos; [exact Hl |].
    unfold _labor. apply Qplus_le_compat.
    - apply worker_labor_mono; assumption.
    - apply equipment_labor_mono; [assumption | assumption |].
      rewrite Heq. apply Qle_refl. }
  destruct (buys_materials (class_of cfg)) eqn:Hc.
  - rewrite !(production_capacity_goods cfg _ Hc Hl0 (Hm eq_refl)).
    do 2 eexists. split; [reflexivity |]. split; [reflexivity |].
    unfold material_capacity. rewrite Hmat. lia.
  - rewrite !(production_capacity_base cfg _ Hc Hl0).
    do 2 eexists. split; [reflexivity |]. split; [reflexivity | exact Hlab].
Qed.

(** X18.  With yields that are not negative and costs per good that are
    positive (the material cost not zero), the capacity grows with the
    roster: hiring, when no applicant names this firm as its employer, never
    lowers it, and firing a worker of the roster never raises it. *)
Theorem capacity_follows_roster (cfg : config) (env : environment) (s : store) :
  0 <= labor_per_worker cfg ->
  0 <= labor_per_equipment cfg ->
  0 < labor_cost_per_good cfg ->
  (buys_materials (class_of cfg) = true -> ~ material_cost_per_good cfg == 0) ->
  (forall applicants wage,
     never_this_firm env applicants ->
     exists r s' c c',
       hire cfg env applicants wage s = (Return r, s')
       /\ _production_capacity cfg (self s) = Return c
       /\ _production_capacity cfg (self s') = Return c'
       /\ (c <= c')%Z)
  /\
  (forall w,
     In w (workers (self s)) ->
     exists s' c c',
       fire w s = (Return tt, s')
       /\ _production_capacity cfg (self s) = Return c
       /\ _production_capacity cfg (self s') = Return c'
       /\ (c' <= c)%Z).
Proof.
  intros Hw He Hl Hm. split.
  - intros applicants wage Hnever.
    destruct (hire_run cfg env applicants wage s Hnever)
      as [r [s' [Hrun [_ [_ [_ [_ [_ Hself]]]]]]]].
    destruct (capacity_grows_with_roster cfg (self s) (self s') Hw He Hl Hm)
      as [c [c' [H1 [H2 H3]]]].
    + rewrite Hself. py_cbn. rewrite length_app. lia.
    + rewrite Hself. reflexivity.
    + rewrite Hself. reflexivity.
    + exists r, s', c, c'. repeat split; assumption.
  - intros w Hin.
    destruct (list_remove_In w _ Hin) as [ws' Hrem].
    pose proof (list_remove_length _ _ _ Hrem) as Hlen.
    rewrite fire_run, Hrem.
    match goal with |- context [ {| self := ?a; sent := ?b; tick := ?c |} ] =>
      destruct (capacity_grows_with_roster cfg a (self s) Hw He Hl Hm)
        as [c' [c0 [H1 [H2 H3]]]]
    end.
    + py_cbn. lia.
    + reflexivity.
    + reflexivity.
    + do 3 eexists. split; [reflexivity |]. py_cbn.
      split; [exact H2 |]. split; [exact H1 | exact H3].
Qed.

Lemma capacity_follows_roster_witness :
  (exists r s' c c',
     hire example_config example_env [5%nat; 6%nat] 10 (start short_of_workers)
       = (Return r, s')
     /\ _production_capacity example_config short_of_workers = Return c
     /\ _production_capacity example_config (self s') = Return c'
     /\ (c <= c')%Z)
  /\
  (exists s' c c',
     fire 1%nat (start short_of_workers) = (Return tt, s')
     /\ _production_capacity example_config short_of_workers = Return c
     /\ _production_capacity example_config (self s') = Return c'
     /\ (c' <= c)%Z).
Proof.
  destruct (capacity_follows_roster example_config example_env (start short_of_workers))
    as [Hh Hf].
  - unfold Qle; simpl; lia.
  - unfold Qle; simpl; lia.
  - reflexivity.
  - intro H. discriminate H.
  - split.
    + apply (Hh [5%nat; 6%nat] 10). intros t x _. discriminate.
    + apply (Hf 1%nat). simpl. left. reflexivity.
Defined.

(** ** Shutdown, again and again *)

Lemma shutdown_split_facts (n : nat) :
  forall l,
    (length l <= n)%nat ->
    length (kept_by_shutdown l) = Nat.div2 (length l)
    /\ (forall x, In x (kept_by_shutdown l) -> In x l)
    /\ (NoDup l -> NoDup (kept_by_shutdown l))
    /\ Permutation (fired_by_shutdown l ++ kept_by_shutdown l) l.
Proof.
  induction n as [| n IH]; intros l Hlen.
  - destruct l; [| simpl in Hlen; lia].
    simpl. repeat split; try tauto. constructor.
  - destruct l as [| x [| y l]].
    + simpl. repeat split; try tauto. constructor.
    + simpl. repeat split; try tauto.
      * intros _. constructor.
      * apply Permutation_refl.
    + destruct (IH l) as [H1 [H2 [H3 H4]]]; [simpl in Hlen; lia |].
      cbn [kept_by_shutdown fired_by_shutdown length Nat.div2].
      split; [rewrite H1; reflexivity |]. split; [| split].
      * intros z [Hz | Hz]; [right; left; exact Hz |].
        right. right. apply H2. exact Hz.
      * intro ND. inversion ND as [| ? ? Hx ND1]; subst.
        inversion ND1 as [| ? ? Hy ND2]; subst.
        constructor; [| apply H3; exact ND2].
        intro Hin. apply Hy. apply H2. exact Hin.
      * cbn [app]. constructor.
        apply Permutation_trans with (y :: fired_by_shutdown l ++ kept_by_shutdown l).
        { apply Permutation_sym. apply Permutation_middle. }
        { constructor. exact H4. }
Qed.

(** X19.  On a roster without duplicates [shutdown] returns having fired
    every other worker, the first, the third and so on, each with one quit
    in that order; the workers in between, half of the roster rounded down,
    stay on the roster in their order. *)
Theorem shutdown_every_other (s : store) :
  NoDup (workers (self s)) ->
  exists s',
    shutdown s = (Return tt, s')
    /\ workers (self s') = kept_by_shutdown (workers (self s))
    /\ sent s' = sent s ++ map WorkerQuit (fired_by_shutdown (workers (self s)))
    /\ length (workers (self s')) = Nat.div2 (length (workers (self s)))
    /\ Permutation (fired_by_shutdown (workers (self s)) ++ workers (self s'))
         (workers (self s)).
Proof.
  intro ND. destruct (shutdown_run s ND) as [s' [Hrun [Hw Hs]]].
  destruct (shutdown_split_facts _ (workers (self s)) (Nat.le_refl _))
    as [H1 [_ [_ H4]]].
  exists s'. split; [exact Hrun |]. split; [exact Hw |]. split; [exact Hs |].
  rewrite Hw. split; [exact H1 | exact H4].
Qed.

Lemma shutdown_every_other_witness :
  exists s',
    shutdown (start (set_workers [1%nat; 2%nat; 3%nat; 4%nat; 5%nat] initial_state))
      = (Return tt, s')
    /\ workers (self s') = [2%nat; 4%nat]
    /\ sent s' = [WorkerQuit 1%nat; WorkerQuit 3%nat; WorkerQuit 5%nat].
Proof.
  destruct (shutdown_every_other
              (start (set_workers [1%nat; 2%nat; 3%nat; 4%nat; 5%nat] initial_state)))
    as [s' [Hrun [Hw [Hs _]]]].
  - simpl. repeat constructor; simpl; intuition discriminate.
  - exists s'. split; [exact Hrun |]. split; [exact Hw | exact Hs].
Defined.

Lemma after_shutdowns_run (n : nat) :
  forall s,
    NoDup (workers (self s)) ->
    exists fired,
      sent (after_shutdowns n s) = sent s ++ map WorkerQuit fired
      /\ Permutation (fired ++ workers (self (after_shutdowns n s))) (workers (self s))
      /\ ((length (workers (self s)) < 2 ^ n)%nat ->
          workers (self (after_shutdowns n s)) = []).
Proof.
  induction n as [| n IH]; intros s ND.
  - exists []. cbn [after_shutdowns]. simpl. rewrite app_nil_r.
    split; [reflexivity |]. split; [apply Permutation_refl |].
    intro H. destruct (workers (self s)); [reflexivity | simpl in H; lia].
  - destruct (shutdown_run s ND) as [s1 [Hrun [Hw Hs]]].
    destruct (shutdown_split_facts _ (workers (self s)) (Nat.le_refl _))
      as [H1 [_ [H3 H4]]].
    cbn [after_shutdowns]. rewrite Hrun. cbn [snd].
    destruct (IH s1) as [fired [Hsent [Hperm Hempty]]];
      [rewrite Hw; apply H3; exact ND |].
    exists (fired_by_shutdown (workers (self s)) ++ fired).
    split; [rewrite Hsent, Hs, map_app, app_assoc; reflexivity |].
    split.
    + rewrite <- app_assoc.
      apply Permutation_trans
        with (fired_by_shutdown (workers (self s)) ++ workers (self s1)).
      * apply Permutation_app_head. exact Hperm.
      * rewrite Hw. exact H4.
    + intro Hlen. apply Hempty. rewrite Hw, H1.
      rewrite Nat.div2_div. cbn [Nat.pow] in Hlen.
      apply Nat.Div0.div_lt_upper_bound. lia.
Qed.

(** X20.  Calling [shutdown] again and again does release everybody: on a
    roster without duplicates of fewer than 2^n workers, n calls leave the
    roster empty, and the quits sent are one for each worker of the roster. *)
Theorem shutdown_repeated (n : nat) (s : store) :
  NoDup (workers (self s)) ->
  (length (workers (self s)) < 2 ^ n)%nat ->
  workers (self (after_shutdowns n s)) = []
  /\ exists fired,
       sent (after_shutdowns n s) = sent s ++ map WorkerQuit fired
       /\ Permutation fired (workers (self s)).
Proof.
  intros ND Hlen.
  destruct (after_shutdowns_run n s ND) as [fired [Hsent [Hperm Hempty]]].
  specialize (Hempty Hlen). split; [exact Hempty |].
  exists fired. split; [exact Hsent |].
  rewrite Hempty, app_nil_r in Hperm. exact Hperm.
Qed.

Lemma shutdown_repeated_witness :
  let s := start (set_workers [1%nat; 2%nat; 3%nat; 4%nat; 5%nat] initial_state) in
  workers (self (after_shutdowns 3 s)) = []
  /\ exists fired,
       sent (after_shutdowns 3 s) = map WorkerQuit fired
       /\ Permutation fired [1%nat; 2%nat; 3%nat; 4%nat; 5%nat].
Proof.
  intro s.
  apply (shutdown_repeated 3 s).
  - simpl. repeat constructor; simpl; intuition discriminate.
  - simpl. lia.
Defined.

(** ** The instructions of a hiring round *)

Lemma hire_loop_trace (env : environment) (wage : Q) (fuel : nat) :
  forall applicants hired s applicants' hired' s',
    (length applicants <= fuel)%nat ->
    hire_loop env fuel wage applicants hired s = (Return (applicants', hired'), s') ->
    exists new,
      hired' = hired ++ new
      /\ sent s' = sent s ++ hire_events env wage (tick s) new.
Proof.
  induction fuel as [| fuel IH]; intros applicants hired s applicants' hired' s' Hlen Hrun.
  - destruct applicants as [| a rest]; [| simpl in Hlen; lia].
    cbn [hire_loop] in Hrun. unfold bind, get in Hrun. py_cbn in Hrun.
    rewrite andb_false_r in Hrun. injection Hrun as _ <- <-.
    exists []. cbn [hire_events]. rewrite !app_nil_r. split; reflexivity.
  - destruct (Z.ltb_spec 0 (worker_change (self s))) as [Hwc | Hwc];
      [destruct applicants as [| a rest] |].
    + cbn [hire_loop] in Hrun. unfold bind, get in Hrun. py_cbn in Hrun.
      rewrite andb_false_r in Hrun. injection Hrun as _ <- <-.
      exists []. cbn [hire_events]. rewrite !app_nil_r. split; reflexivity.
    + destruct (random_choice_In env (a :: rest) s) as [w [Hin Hnth]];
        [discriminate |].
      destruct (list_remove_In w (a :: rest) Hin) as [apps Hrem].
      rewrite (hire_loop_unfold env wage fuel (a :: rest) hired s w apps Hwc Hnth Hrem)
        in Hrun.
      pose proof (list_remove_length _ _ _ Hrem) as Hl'.
      assert (Hfuel : (length apps <= fuel)%nat) by (simpl in Hl', Hlen; lia).
      destruct (employer_answer env (S (tick s)) w) as [[| f] |] eqn:Ea.
      * destruct (list_remove w (workers (self s))) as [ws' |]; [| discriminate Hrun].
        destruct (IH _ _ _ _ _ _ Hfuel Hrun) as [new [Hh Hs]].
        py_cbn in Hs.
        exists (w :: new). cbn [hire_events]. rewrite Ea.
        split; [rewrite Hh, <- app_assoc; reflexivity |].
        rewrite Hs, <- !app_assoc. reflexivity.
      * destruct (IH _ _ _ _ _ _ Hfuel Hrun) as [new [Hh Hs]].
        py_cbn in Hs.
        exists (w :: new). cbn [hire_events]. rewrite Ea.
        split; [rewrite Hh, <- app_assoc; reflexivity |].
        rewrite Hs, <- !app_assoc. reflexivity.
      * destruct (IH _ _ _ _ _ _ Hfuel Hrun) as [new [Hh Hs]].
        py_cbn in Hs.
        exists (w :: new). cbn [hire_events]. rewrite Ea.
        split; [rewrite Hh, <- app_assoc; reflexivity |].
        rewrite Hs, <- !app_assoc. reflexivity.
    + cbn [hire_loop] in Hrun. unfold bind, get in Hrun. py_cbn in Hrun.
      apply Z.ltb_ge in Hwc. rewrite Hwc in Hrun. injection Hrun as _ <- <-.
      exists []. cbn [hire_events]. rewrite !app_nil_r. split; reflexivity.
Qed.

(** X21.  The protocol of a hiring round: when [hire] returns, the
    instructions it has sent are exactly, for each hired worker in turn, the
    hire at the wage that was offered (never the raised one), preceded,
    when the worker answered the question for its employer with an
    employer, by the instruction to that very employer to fire the worker
    (the worker's quit when the employer is this firm), and nothing when it
    answered with none.  It returns whenever no applicant names this firm as
    its employer. *)
Theorem hire_instructions (cfg : config) (env : environment)
    (applicants : list worker) (wage : Q) (s : store) :
  (forall r s',
     hire cfg env applicants wage s = (Return r, s') ->
     sent s' = sent s ++ hire_events env wage (tick s) (hired_workers r))
  /\ (never_this_firm env applicants ->
      exists r s', hire cfg env applicants wage s = (Return r, s')).
Proof.
  split.
  - intros r s' Hrun. unfold hire, bind at 1 in Hrun.
    destruct (hire_loop env (length applicants) wage applicants [] s)
      as [[[apps hired] | e |] s1] eqn:Hloop; try discriminate Hrun.
    destruct (hire_loop_trace env wage _ _ _ _ _ _ _ (Nat.le_refl _) Hloop)
      as [new [Hh Hs]].
    simpl in Hh. subst hired. py_run. py_cbn in Hrun.
    unfold bind, get, ret in Hrun. py_cbn in Hrun.
    injection Hrun as <- <-. cbn [hired_workers]. exact Hs.
  - intro Hnever.
    destruct (hire_run cfg env applicants wage s Hnever) as [r [s' [Hrun _]]].
    exists r, s'. exact Hrun.
Qed.

Lemma hire_instructions_witness :
  exists r s',
    hire example_config poaching_env [5%nat; 6%nat] 10 (start short_of_workers)
      = (Return r, s')
    /\ sent s' = [EmployerFire 9%nat 5%nat; WorkerHire 5%nat 10; WorkerHire 6%nat 10].
Proof.
  destruct (hire_instructions example_config poaching_env [5%nat; 6%nat] 10
              (start short_of_workers)) as [Htrace Hret].
  destruct Hret as [r [s' Hrun]].
  - intros t x _. unfold poaching_env. cbn [employer_answer].
    destruct (Nat.eqb x 5); discriminate.
  - exists r, s'. split; [exact Hrun |].
    rewrite (Htrace r s' Hrun).
    vm_compute in Hrun. injection Hrun as Hr Hs. subst r. reflexivity.
Defined.

(** ** Planning with equipment not yet bought *)

(** X22.  The labor the firm would have with some amount of equipment is its
    actual labor at the equipment it holds; with a yield of equipment that
    is not negative it does not decrease with the amount, so planning with
    more equipment than is held never understates the labor, and from one
    piece per worker on it stays at the labor of a fully equipped roster. *)
Theorem labor_for_equipment_bounds (cfg : config) (st : state) :
  0 <= labor_per_equipment cfg ->
  _labor_for_equipment cfg st (equipment st) = _labor cfg st
  /\ (forall e1 e2,
        e1 <= e2 -> _labor_for_equipment cfg st e1 <= _labor_for_equipment cfg st e2)
  /\ (forall e,
        equipment st <= e -> _labor cfg st <= _labor_for_equipment cfg st e)
  /\ (forall e,
        Qnat (length (workers st)) <= e ->
        _labor_for_equipment cfg st e
        == (labor_per_worker cfg + labor_per_equipment cfg)
           * Qnat (length (workers st))).
Proof.
  intro He.
  assert (Hmono : forall e1 e2,
            e1 <= e2 ->
            _labor_for_equipment cfg st e1 <= _labor_for_equipment cfg st e2).
  { intros e1 e2 H. unfold _labor_for_equipment.
    apply Qplus_le_compat; [apply Qle_refl |].
    apply Qmult_le_compat_r; [| exact He].
    apply Qmin_mono; [apply Qle_refl | exact H]. }
  split; [reflexivity |]. split; [exact Hmono |]. split.
  - intros e H. apply (Hmono (equipment st) e H).
  - intros e H. unfold _labor_for_equipment, _worker_labor.
    rewrite (Q.min_l _ _ H). ring.
Qed.

Lemma labor_for_equipment_bounds_witness :
  _labor example_config short_of_workers
  <= _labor_for_equipment example_config short_of_workers 1
  /\ _labor_for_equipment example_config short_of_workers 5 == 6.
Proof.
  destruct (labor_for_equipment_bounds example_config short_of_workers)
    as [_ [_ [Hup Hsat]]].
  - unfold Qle; simpl; lia.
  - split.
    + apply Hup. unfold Qle; simpl; lia.
    + rewrite Hsat; [vm_compute; reflexivity |].
      unfold Qnat, Qle; simpl; lia.
Defined.

(** ** The six actions *)

Lemma actions_lookup (cfg : config) (i : nat) (act : action) :
  nth_error (actions cfg) i = Some act ->
  (i < 6)%nat
  /\ (act_supply act = Some (supply_increment cfg)
      \/ act_supply act = Some (- supply_increment cfg))
  /\ (act_profit_margin act = None
      \/ act_profit_margin act = Some (profit_increment cfg)
      \/ act_profit_margin act = Some (- profit_increment cfg)).
Proof.
  intro H. unfold actions in H.
  do 6 (destruct i as [| i];
        [injection H as <-; cbn [act_supply act_profit_margin];
         repeat split; try lia; auto |]).
  destruct i; discriminate H.
Qed.

(** X23.  There are six actions, and the learner's answer is one of them
    exactly when it is below 6.  Whatever action is picked,
    [set_production_target] moves the desired supply by one supply
    increment, up or down, and clamps it at 1: no action leaves the supply
    target alone; the profit margin stays or moves by one profit increment. *)
Theorem every_action_moves_supply (cfg : config) (env : environment) (w : world)
    (s : store) :
  (forall i, (i < 6)%nat <-> exists act, nth_error (actions cfg) i = Some act)
  /\ (forall act,
        chosen_action cfg env s = Some act ->
        let st' := self (snd (set_production_target cfg env w s)) in
        (desired_supply st' = Qmax 1 (desired_supply (self s) + supply_increment cfg)
         \/ desired_supply st'
            = Qmax 1 (desired_supply (self s) + - supply_increment cfg))
        /\ (profit_margin st' = profit_margin (self s) + 0
            \/ profit_margin st' = profit_margin (self s) + profit_increment cfg
            \/ profit_margin st'
               = profit_margin (self s) + - profit_increment cfg)).
Proof.
  split.
  - intro i. split.
    + intro H. do 6 (destruct i as [| i]; [eexists; reflexivity |]). lia.
    + intros [act H]. apply (actions_lookup cfg i act H).
  - intros act Hact st'.
    destruct (set_production_target_run cfg env w s act Hact)
      as [vac [wage [s' [Hrun [_ [_ [Hds [Hpm _]]]]]]]].
    unfold st'. rewrite Hrun. cbn [snd]. rewrite Hds, Hpm.
    unfold chosen_action in Hact.
    destruct (actions_lookup cfg _ act Hact) as [_ [Hs Hp]].
    split.
    + destruct Hs as [E | E]; rewrite E; [left | right]; reflexivity.
    + destruct Hp as [E | [E | E]]; rewrite E;
        [left | right; left | right; right]; reflexivity.
Qed.

Lemma every_action_moves_supply_witness :
  let st' := self (snd (set_production_target example_config example_env
                          example_world (start short_of_workers))) in
  desired_supply st' == 2 \/ desired_supply st' == 1.
Proof.
  intro st'.
  destruct (every_action_moves_supply example_config example_env example_world
              (start short_of_workers)) as [_ H].
  destruct (H {| act_supply := Some 1; act_profit_margin := None |} eq_refl)
    as [[E | E] _]; fold st' in E; rewrite E.
  - left. vm_compute. reflexivity.
  - right. vm_compute. reflexivity.
Defined.
